(** * Generate page and generate API client: a shallow embedding

    Sources embedded here:
    - [frontend/src/pages/Generate.tsx]: the prompt pre-fill handler (the
      [onClick] of a prompt button), the polling closure [pollResult] started
      by [generateMutation.onSuccess], and [handleDownload]; further the
      default-prompt effect, [mutationFn], [handleGenerate], [onDrop]
      and [removeFile];
    - [frontend/src/services/api.ts]: [generateApi.download]; further the two
      interceptors, [templatesApi.upload] and [documentsApi.upload];
    - [frontend/src/hooks/useAuth.ts]: the actions of the session store;
    - the pages that call the client: [handleUpload] of the Templates page,
      [onDrop] of the Documents page, [handleOpenTest] of the prompt manager.

    JavaScript strings are modelled as [string]; a character stands for one
    code unit below 256.  Objects received from the network (response bodies,
    response headers) are finite maps from property names to strings. *)

From Stdlib Require Import Ascii String ZArith Lia.
From stdpp Require Import base option list strings gmap.

Local Open Scope Z_scope.
Local Open Scope nat_scope.

#[local] Arguments String.append !_ _ / : simpl nomatch.

(** ** JavaScript built-ins used by the two source files *)

Module JS.

(** *** Characters *)

Definition dquote : ascii := ascii_of_nat 34.
Definition dollar : ascii := ascii_of_nat 36.
Definition ampersand : ascii := ascii_of_nat 38.
Definition backtick : ascii := ascii_of_nat 96.
Definition apostrophe : ascii := ascii_of_nat 39.
Definition dot : ascii := ascii_of_nat 46.
Definition slash : ascii := ascii_of_nat 47.
Definition backslash : ascii := ascii_of_nat 92.
Definition lbrace : ascii := ascii_of_nat 123.
Definition rbrace : ascii := ascii_of_nat 125.

Definition char_eqb (a b : ascii) : bool := Ascii.eqb a b.

(** LineTerminator code units below 256: LF and CR. *)
Definition is_line_terminator (c : ascii) : bool :=
  let n := nat_of_ascii c in (n =? 10) || (n =? 13).

(** WhiteSpace and LineTerminator code units below 256, the set stripped by
    [String.prototype.trim]: TAB, LF, VT, FF, CR, SP and NBSP. *)
Definition is_white_space (c : ascii) : bool :=
  let n := nat_of_ascii c in
  ((9 <=? n) && (n <=? 13)) || (n =? 32) || (n =? 160).

(** SyntaxCharacter of the regular expression grammar:
    [^ $ \ . * + ? ( ) [ ] { } |]. *)
Definition is_syntax_char (c : ascii) : bool :=
  let n := nat_of_ascii c in
  (n =? 94) || (n =? 36) || (n =? 92) || (n =? 46) || (n =? 42) ||
  (n =? 43) || (n =? 63) || (n =? 40) || (n =? 41) || (n =? 91) ||
  (n =? 93) || (n =? 123) || (n =? 125) || (n =? 124).

(** *** Strings *)

(** Truthiness of a string: the empty string is falsy. *)
Definition truthy (s : string) : bool :=
  match s with EmptyString => false | String _ _ => true end.

(** [a || b] where [a] is a possibly missing string property. *)
Definition or_else (a : option string) (b : string) : string :=
  match a with
  | Some s => if truthy s then s else b
  | None => b
  end.

Fixpoint trimStart (s : string) : string :=
  match s with
  | EmptyString => EmptyString
  | String c s' => if is_white_space c then trimStart s' else s
  end.

Fixpoint trimEnd (s : string) : string :=
  match s with
  | EmptyString => EmptyString
  | String c s' =>
      match trimEnd s' with
      | EmptyString => if is_white_space c then EmptyString else String c EmptyString
      | t => String c t
      end
  end.

(** [String.prototype.trim]. *)
Definition trim (s : string) : string := trimEnd (trimStart s).

(** [s.startsWith(p)] returning the remainder after [p]. *)
Fixpoint strip_prefix (p s : string) : option string :=
  match p, s with
  | EmptyString, _ => Some s
  | String a p', String b s' => if char_eqb a b then strip_prefix p' s' else None
  | String _ _, EmptyString => None
  end.

(** *** Regular expressions: the fragment the page can build

    [new RegExp(source, 'g')] is modelled for pattern sources made of
    pattern characters, identity escapes and the wildcard [.]; a matcher for
    that fragment is a sequence of single-character atoms. *)

Inductive atom : Type :=
| Lit (c : ascii)   (* a PatternCharacter, or an escaped SyntaxCharacter *)
| Dot.              (* [.]: any code unit but a line terminator *)

Definition RegExp : Type := list atom.

Definition atom_matches (a : atom) (c : ascii) : bool :=
  match a with
  | Lit d => char_eqb d c
  | Dot => negb (is_line_terminator c)
  end.

(** The pattern source, read left to right.  A backslash followed by a
    SyntaxCharacter or a slash is an identity escape; a pattern character
    stands for itself; [.] is the wildcard.  [None]: the source uses syntax
    outside the fragment (quantifier, group, class, anchor, alternation,
    any other escape), whose meaning is not modelled. *)
Fixpoint parse_source (s : string) : option RegExp :=
  match s with
  | EmptyString => Some []
  | String c s' =>
      if char_eqb c backslash then
        match s' with
        | EmptyString => None
        | String d s'' =>
            if is_syntax_char d || char_eqb d slash then
              match parse_source s'' with
              | Some r => Some (Lit d :: r)
              | None => None
              end
            else None
        end
      else if char_eqb c dot then
        match parse_source s' with
        | Some r => Some (Dot :: r)
        | None => None
        end
      else if is_syntax_char c then None
      else
        match parse_source s' with
        | Some r => Some (Lit c :: r)
        | None => None
        end
  end.

(** Match the atoms at the start of [s]: the matched text and the rest. *)
Fixpoint match_here (re : RegExp) (s : string) : option (string * string) :=
  match re with
  | [] => Some (EmptyString, s)
  | a :: re' =>
      match s with
      | EmptyString => None
      | String c s' =>
          if atom_matches a c then
            match match_here re' s' with
            | Some (m, rest) => Some (String c m, rest)
            | None => None
            end
          else None
      end
  end.

(** GetSubstitution for a regular expression without capture groups:
    [$$] is a dollar sign, [$&] the matched text, [$`] the text before the
    match, [$'] the text after it; any other character, and a dollar sign
    followed by anything else, is copied. *)
Fixpoint GetSubstitution (matched before after template : string) : string :=
  match template with
  | EmptyString => EmptyString
  | String c t =>
      if char_eqb c dollar then
        match t with
        | EmptyString => String c EmptyString
        | String d t' =>
            if char_eqb d dollar then String dollar (GetSubstitution matched before after t')
            else if char_eqb d ampersand then matched +:+ GetSubstitution matched before after t'
            else if char_eqb d backtick then before +:+ GetSubstitution matched before after t'
            else if char_eqb d apostrophe then after +:+ GetSubstitution matched before after t'
            else String c (GetSubstitution matched before after t)
        end
      else String c (GetSubstitution matched before after t)
  end.

(** [str.replace(re, template)] for a global [re]: scan [s] from the left;
    [before] is the part of the original string already passed and [skip]
    the number of characters of the last match still to pass over.  An
    empty match inserts the substitution and keeps the character. *)
Fixpoint replace_from (re : RegExp) (template before s : string) (skip : nat) : string :=
  match s with
  | EmptyString =>
      match skip, match_here re EmptyString with
      | O, Some (m, rest) => GetSubstitution m before rest template
      | _, _ => EmptyString
      end
  | String c s' =>
      match skip with
      | S k => replace_from re template (before +:+ String c EmptyString) s' k
      | O =>
          match match_here re s with
          | Some (m, rest) =>
              GetSubstitution m before rest template +:+
              match String.length m with
              | O => String c (replace_from re template (before +:+ String c EmptyString) s' 0)
              | S k => replace_from re template (before +:+ String c EmptyString) s' k
              end
          | None => String c (replace_from re template (before +:+ String c EmptyString) s' 0)
          end
      end
  end.

Definition replace (s : string) (re : RegExp) (template : string) : string :=
  replace_from re template EmptyString s 0.

End JS.

(** ** Data received from the prompt and generate endpoints *)

(** An element of [prompt.variables]:
    [{ name; description; required; default_value? }]. *)
Module VariableSpec.
Record t : Type := mk {
  name : string;
  description : string;
  required : bool;
  default_value : option string
}.
End VariableSpec.

(** A prompt template as listed by [promptsApi.list]; [variables] may be
    missing from the object. *)
Module Prompt.
Record t : Type := mk {
  id : string;
  name : string;
  description : string;
  category : string;
  content : string;
  variables : option (list VariableSpec.t);
  is_active : bool;
  is_default : bool
}.
End Prompt.

(** A JSON object with string-valued properties; a missing property reads
    as [undefined], modelled by [None]. *)
Abbreviation JsObject := (gmap string string).

(** The outcome of awaiting a request.  [Rejected] covers the rejected
    promise and the reply whose body is [null] or [undefined], for which the
    first property access throws inside the same [try] block. *)
Inductive Reply (A : Type) : Type :=
| Resolved (value : A)
| Rejected.
Arguments Resolved {A} value.
Arguments Rejected {A}.

(** The part of a fetch [Response] read by the download code. *)
Record Response : Type := mkResponse {
  ok : bool;
  status_code : Z;
  headers : JsObject;   (* keyed by lower-case header name *)
  body : string         (* the bytes returned by [response.blob()] *)
}.

(** ** State of the [Generate] component and its observable effects *)

Record GenerateState : Type := mkState {
  selectedType : string;
  language : string;
  context : string;
  textInput : string;
  generatedContent : option string;
  isPolling : bool;
  currentJobId : option string;
  isDownloading : bool;
  showFormatDropdown : bool;
  selectedPrompt : option Prompt.t;
  showPromptSelector : bool
}.

Definition setTextInput (v : string) (st : GenerateState) : GenerateState :=
  mkState (selectedType st) (language st) (context st) v (generatedContent st)
    (isPolling st) (currentJobId st) (isDownloading st) (showFormatDropdown st)
    (selectedPrompt st) (showPromptSelector st).

Definition setGeneratedContent (v : option string) (st : GenerateState) : GenerateState :=
  mkState (selectedType st) (language st) (context st) (textInput st) v
    (isPolling st) (currentJobId st) (isDownloading st) (showFormatDropdown st)
    (selectedPrompt st) (showPromptSelector st).

Definition setIsPolling (v : bool) (st : GenerateState) : GenerateState :=
  mkState (selectedType st) (language st) (context st) (textInput st) (generatedContent st)
    v (currentJobId st) (isDownloading st) (showFormatDropdown st)
    (selectedPrompt st) (showPromptSelector st).

Definition setCurrentJobId (v : option string) (st : GenerateState) : GenerateState :=
  mkState (selectedType st) (language st) (context st) (textInput st) (generatedContent st)
    (isPolling st) v (isDownloading st) (showFormatDropdown st)
    (selectedPrompt st) (showPromptSelector st).

Definition setIsDownloading (v : bool) (st : GenerateState) : GenerateState :=
  mkState (selectedType st) (language st) (context st) (textInput st) (generatedContent st)
    (isPolling st) (currentJobId st) v (showFormatDropdown st)
    (selectedPrompt st) (showPromptSelector st).

Definition setShowFormatDropdown (v : bool) (st : GenerateState) : GenerateState :=
  mkState (selectedType st) (language st) (context st) (textInput st) (generatedContent st)
    (isPolling st) (currentJobId st) (isDownloading st) v
    (selectedPrompt st) (showPromptSelector st).

Definition setSelectedPrompt (v : option Prompt.t) (st : GenerateState) : GenerateState :=
  mkState (selectedType st) (language st) (context st) (textInput st) (generatedContent st)
    (isPolling st) (currentJobId st) (isDownloading st) (showFormatDropdown st)
    v (showPromptSelector st).

Definition setShowPromptSelector (v : bool) (st : GenerateState) : GenerateState :=
  mkState (selectedType st) (language st) (context st) (textInput st) (generatedContent st)
    (isPolling st) (currentJobId st) (isDownloading st) (showFormatDropdown st)
    (selectedPrompt st) v.

(** What a handler does besides updating the component state, in order. *)
Inductive Effect : Type :=
| ToastSuccess (message : string)
| ToastError (message : string)
| ConsoleError (message : string)
| GetJobStatus (jobId : string) (reply : Reply JsObject)   (* [generateApi.getJobStatus] and what it returned *)
| GetResult (jobId : string) (reply : Reply JsObject)      (* [generateApi.getResult] and what it returned *)
| SetTimeout (delay : Z)                                   (* [setTimeout(pollResult, delay)] *)
| SaveFile (filename : string) (data : string).            (* the click on the temporary download link *)

(** ** Prompt pre-fill (Generate.tsx, the prompt button's [onClick]) *)

(** The source text [`\{\{${v.name}\}\}`] given to [new RegExp]. *)
Definition placeholder_source (name : string) : string :=
  "\{\{" +:+ name +:+ "\}\}".

(** [v.default_value || `[${v.description || v.name}]`]. *)
Definition replacement (v : VariableSpec.t) : string :=
  JS.or_else (VariableSpec.default_value v)
    ("[" +:+ JS.or_else (Some (VariableSpec.description v)) (VariableSpec.name v) +:+ "]").

(** The body of the [forEach] callback for one variable. *)
Definition replace_variable (content : string) (v : VariableSpec.t) : option string :=
  match JS.parse_source (placeholder_source (VariableSpec.name v)) with
  | Some re => Some (JS.replace content re (replacement v))
  | None => None
  end.

(** [prompt.variables.forEach(v => { content = content.replace(...) })]. *)
Fixpoint replace_variables (content : string) (vs : list VariableSpec.t) : option string :=
  match vs with
  | [] => Some content
  | v :: vs' =>
      match replace_variable content v with
      | Some content' => replace_variables content' vs'
      | None => None
      end
  end.

(** The text computed for the requirements box: lines 286-294. *)
Definition resolve (prompt : Prompt.t) : option string :=
  match Prompt.variables prompt with
  | Some vs => replace_variables (Prompt.content prompt) vs
  | None => Some (Prompt.content prompt)
  end.

(** The [onClick] handler of a prompt button.  [None] only when the pre-fill
    runs and a variable name is outside the modelled pattern fragment. *)
Definition selectPrompt (prompt : Prompt.t) (st : GenerateState)
  : option (GenerateState * list Effect) :=
  let st1 := setShowPromptSelector false (setSelectedPrompt (Some prompt) st) in
  let loaded := ToastSuccess ("Loaded prompt: " +:+ Prompt.name prompt) in
  if negb (JS.truthy (JS.trim (textInput st))) then
    match resolve prompt with
    | Some content => Some (setTextInput content st1, [loaded])
    | None => None
    end
  else Some (st1, [loaded]).

(** ** Polling (Generate.tsx, [generateMutation.onSuccess]) *)

(** One invocation of the closure [pollResult] for the job [jobId].
    [status_reply] is what awaiting [getJobStatus] gives; [result_reply] is
    what awaiting [getResult] gives if the code gets there. *)
Definition pollResult (jobId : string) (status_reply result_reply : Reply JsObject)
    (st : GenerateState) : GenerateState * list Effect :=
  let catch (done : list Effect) :=
    (setCurrentJobId None (setIsPolling false st),
     done ++ [ToastError "Failed to get generation status"]) in
  match status_reply with
  | Resolved status =>
      if decide (status !! "status" = Some "completed") then
        match result_reply with
        | Resolved result =>
            (setIsPolling false (setGeneratedContent (result !! "content") st),
             [GetJobStatus jobId status_reply; GetResult jobId result_reply;
              ToastSuccess "Document generated successfully!"])
        | Rejected =>
            catch [GetJobStatus jobId status_reply; GetResult jobId result_reply]
        end
      else if decide (status !! "status" = Some "failed") then
        (setCurrentJobId None (setIsPolling false st),
         [GetJobStatus jobId status_reply;
          ToastError (JS.or_else (status !! "error_message") "Generation failed")])
      else
        (st, [GetJobStatus jobId status_reply; SetTimeout 2000])
  | Rejected => catch [GetJobStatus jobId status_reply]
  end.

(** The delays of the timers armed by a list of effects. *)
Fixpoint timeouts (es : list Effect) : list Z :=
  match es with
  | [] => []
  | SetTimeout d :: es' => d :: timeouts es'
  | _ :: es' => timeouts es'
  end.

(** The backend as the polling closure sees it: what the [n]-th status
    request and the result request made in the [n]-th invocation return. *)
Record Backend : Type := mkBackend {
  status_reply : nat -> Reply JsObject;
  result_reply : nat -> Reply JsObject
}.

Record Run : Type := mkRun {
  final : GenerateState;
  effects : list Effect;
  armed : bool   (* an invocation of [pollResult] is still to come *)
}.

(** The chain of invocations of [pollResult]: the direct call and then one
    per timer that fires.  [fires] bounds how many invocations are observed,
    [n] counts those already made. *)
Fixpoint pollLoop (fires n : nat) (jobId : string) (be : Backend) (st : GenerateState) : Run :=
  match fires with
  | O => mkRun st [] true
  | S fires' =>
      let '(st', es) := pollResult jobId (status_reply be n) (result_reply be n) st in
      match timeouts es with
      | [] => mkRun st' es false
      | _ :: _ =>
          let r := pollLoop fires' (S n) jobId be st' in
          mkRun (final r) (es ++ effects r) (armed r)
      end
  end.

(** [onSuccess(data)] with [data.job_id = jobId], observed for [fires]
    invocations of [pollResult]. *)
Definition onSuccess (jobId : string) (fires : nat) (be : Backend) (st : GenerateState) : Run :=
  pollLoop fires 0 jobId be (setCurrentJobId (Some jobId) (setIsPolling true st)).

(** ** Download (api.ts [generateApi.download], Generate.tsx [handleDownload]) *)

(** The literal text opening the pattern of line 158: [filename=] and a
    double quote.  The whole pattern is that text, the group [(.+)] and a
    closing double quote. *)
Definition filename_key : string := "filename=" +:+ String JS.dquote EmptyString.

(** The group [(.+)] and the closing double quote, matched at the start of
    [s].  The group is greedy: it takes the longest non-empty run of
    characters other than line terminators that is followed by a double
    quote.  Returns the captured run. *)
Fixpoint dot_plus_quote (s : string) : option string :=
  match s with
  | EmptyString => None
  | String c s' =>
      if JS.is_line_terminator c then None
      else
        match dot_plus_quote s' with
        | Some capture => Some (String c capture)
        | None =>
            match s' with
            | String q _ => if JS.char_eqb q JS.dquote then Some (String c EmptyString) else None
            | EmptyString => None
            end
        end
  end.

(** [contentDisposition.match(...)] with the pattern of line 158: group 1
    of the leftmost match, [None] when the pattern matches nowhere. *)
Fixpoint match_filename (s : string) : option string :=
  let here :=
    match JS.strip_prefix filename_key s with
    | Some after_key => dot_plus_quote after_key
    | None => None
    end in
  match here with
  | Some capture => Some capture
  | None =>
      match s with
      | EmptyString => None
      | String _ s' => match_filename s'
      end
  end.

(** Lines 155-162 of api.ts, the same as lines 163-170 of Generate.tsx. *)
Definition filename_for (format : string) (response : Response) : string :=
  let filename := "document." +:+ format in
  match headers response !! "content-disposition" with
  | Some contentDisposition =>
      if JS.truthy contentDisposition then
        match match_filename contentDisposition with
        | Some group1 => group1
        | None => filename
        end
      else filename
  | None => filename
  end.

(** What a rejected [download] promise carries. *)
Inductive DownloadError : Type :=
| DownloadFailed    (* [new Error('Download failed')] *)
| FetchRejected.    (* the rejection of [fetch] itself *)

Record Download : Type := mkDownload {
  blob : string;
  filename : string
}.

Definition download_url (base jobId format : string) : string :=
  base +:+ "/generate/" +:+ jobId +:+ "/download?format=" +:+ format.

Section Download.

(** [API_BASE_URL], read from the build environment. *)
Variable API_BASE_URL : string.
(** The network: what [fetch(url)] with the bearer token settles to. *)
Variable fetch : string -> Reply Response.
(** [String.prototype.toUpperCase]. *)
Variable toUpperCase : string -> string.

Definition download (jobId format : string) : DownloadError + Download :=
  match fetch (download_url API_BASE_URL jobId format) with
  | Resolved response =>
      if negb (ok response) then inl DownloadFailed
      else inr (mkDownload (body response) (filename_for format response))
  | Rejected => inl FetchRejected
  end.

Definition handleDownload (format : string) (st : GenerateState)
  : GenerateState * list Effect :=
  let no_document := (st, [ToastError "No document to download"]) in
  match currentJobId st with
  | None => no_document
  | Some jobId =>
      if negb (JS.truthy jobId) then no_document
      else
        let st1 := setShowFormatDropdown false (setIsDownloading true st) in
        let failed :=
          [ConsoleError "Download error:"; ToastError "Failed to download document"] in
        match fetch (download_url "/api/v1" jobId format) with
        | Resolved response =>
            if negb (ok response) then (setIsDownloading false st1, failed)
            else
              (setIsDownloading false st1,
               [SaveFile (filename_for format response) (body response);
                ToastSuccess ("Downloaded as " +:+ toUpperCase format)])
        | Rejected => (setIsDownloading false st1, failed)
        end
  end.

End Download.

(** ** Notions used to state the properties *)

(** [true] when every character of [s] satisfies [p]. *)
Fixpoint all_chars (p : ascii -> bool) (s : string) : bool :=
  match s with
  | EmptyString => true
  | String c s' => p c && all_chars p s'
  end.

(** Empty or whitespace-only text. *)
Definition whitespace_only (s : string) : bool := all_chars JS.is_white_space s.

(** A variable name without regular expression syntax characters. *)
Definition plain_name (name : string) : bool :=
  all_chars (fun c => negb (JS.is_syntax_char c)) name.

(** A replacement text without dollar signs. *)
Definition dollar_free (s : string) : bool :=
  all_chars (fun c => negb (JS.char_eqb c JS.dollar)) s.

(** The placeholder [{{name}}] as it is written in a template. *)
Definition placeholder (name : string) : string := "{{" +:+ name +:+ "}}".

(** [s.includes(p)]: [p] occurs somewhere in [s]. *)
Fixpoint includes (s p : string) : bool :=
  match JS.strip_prefix p s with
  | Some _ => true
  | None =>
      match s with
      | EmptyString => false
      | String _ s' => includes s' p
      end
  end.

(** Textual substitution as the specification words it: every occurrence
    of [p] in [s], found from the left, is replaced by the text [r] itself.
    [fuel] bounds the number of steps; the length of [s] is enough when [p]
    is not empty. *)
Fixpoint substitute_fuel (fuel : nat) (p r s : string) : string :=
  match fuel with
  | O => s
  | S fuel' =>
      match JS.strip_prefix p s with
      | Some rest => r +:+ substitute_fuel fuel' p r rest
      | None =>
          match s with
          | EmptyString => EmptyString
          | String c s' => String c (substitute_fuel fuel' p r s')
          end
      end
  end.

Definition substitute (p r s : string) : string :=
  substitute_fuel (String.length s) p r s.

(** Resolution as the specification words it: for each declared variable in
    turn, every [{{name}}] becomes the default value or the marker. *)
Fixpoint resolve_textually (content : string) (vs : list VariableSpec.t) : string :=
  match vs with
  | [] => content
  | v :: vs' =>
      resolve_textually
        (substitute (placeholder (VariableSpec.name v)) (replacement v) content) vs'
  end.

(** The regular expression matching exactly the text [s]. *)
Fixpoint literal (s : string) : JS.RegExp :=
  match s with
  | EmptyString => []
  | String c s' => JS.Lit c :: literal s'
  end.

(** Terminal job states, read off a status response. *)
Definition is_terminal (status : JsObject) : bool :=
  bool_decide (status !! "status" = Some "completed")
  || bool_decide (status !! "status" = Some "failed").

(** A status request that came back with a non-terminal status. *)
Definition observed_nonterminal (r : Reply JsObject) : bool :=
  match r with
  | Resolved status => negb (is_terminal status)
  | Rejected => false
  end.

(** A status request that came back with a terminal status. *)
Definition observed_terminal (r : Reply JsObject) : bool :=
  match r with
  | Resolved status => is_terminal status
  | Rejected => false
  end.

(** An invocation of [pollResult] in which an awaited request throws: the
    status request, or the result request made after a completed status. *)
Definition poll_throws (status_reply result_reply : Reply JsObject) : bool :=
  match status_reply with
  | Rejected => true
  | Resolved status =>
      bool_decide (status !! "status" = Some "completed")
      && match result_reply with Rejected => true | Resolved _ => false end
  end.

(** The number of status requests in a list of effects. *)
Fixpoint status_requests (es : list Effect) : nat :=
  match es with
  | [] => 0
  | GetJobStatus _ _ :: es' => S (status_requests es')
  | _ :: es' => status_requests es'
  end.

(** The messages of the error toasts in a list of effects. *)
Fixpoint error_toasts (es : list Effect) : list string :=
  match es with
  | [] => []
  | ToastError m :: es' => m :: error_toasts es'
  | _ :: es' => error_toasts es'
  end.

(** Apply resolution to its own result. *)
Definition resolve_twice (content : string) (vs : list VariableSpec.t) : option string :=
  match replace_variables content vs with
  | Some once => replace_variables once vs
  | None => None
  end.

(** Every declared name is free of regular expression syntax. *)
Definition declared_plain (vs : list VariableSpec.t) : bool :=
  forallb (fun v => plain_name (VariableSpec.name v)) vs.

(** Every replacement text is free of dollar signs. *)
Definition replacements_dollar_free (vs : list VariableSpec.t) : bool :=
  forallb (fun v => dollar_free (replacement v)) vs.

(** The text holds no placeholder of a declared variable. *)
Definition no_declared_placeholder (vs : list VariableSpec.t) (text : string) : bool :=
  forallb (fun v => negb (includes text (placeholder (VariableSpec.name v)))) vs.

(** The name [x] is among the declared names. *)
Definition declared (x : string) (vs : list VariableSpec.t) : bool :=
  existsb (fun v => String.eqb x (VariableSpec.name v)) vs.

(** A character other than the opening brace. *)
Definition not_lbrace (c : ascii) : bool := negb (JS.char_eqb JS.lbrace c).

(** A character other than the double quote. *)
Definition not_dquote (c : ascii) : bool := negb (JS.char_eqb c JS.dquote).

(** A character other than the letter f, which opens [filename_key]. *)
Definition not_letter_f (c : ascii) : bool := negb (JS.char_eqb "f"%char c).

(** A character other than a line terminator. *)
Definition not_line_terminator (c : ascii) : bool := negb (JS.is_line_terminator c).

(** In a list of effects, every result request comes right after a status
    request for the same job that returned the status [completed]. *)
Definition result_follows_completed (es : list Effect) : Prop :=
  forall pre jobId reply post,
    es = pre ++ GetResult jobId reply :: post ->
    exists pre' status,
      pre = pre' ++ [GetJobStatus jobId (Resolved status)]
      /\ status !! "status" = Some "completed".


(** ** Sample inputs *)

Definition var (name description : string) (default_value : option string) : VariableSpec.t :=
  VariableSpec.mk name description false default_value.

Definition prompt_of (content : string) (vs : list VariableSpec.t) : Prompt.t :=
  Prompt.mk "p1" "Sample" "" "document_generation" content (Some vs) true false.

Definition initial_state : GenerateState :=
  mkState "" "vi" "" "" None false None false false None false.

Definition pending_status : JsObject := {[ "status" := "pending" ]}.
Definition processing_status : JsObject := {[ "status" := "processing" ]}.
Definition completed_status : JsObject := {[ "status" := "completed" ]}.
Definition generated_result : JsObject := {[ "content" := "# SRS" ]}.

(** A backend that reports [pending], then [processing], then [completed]. *)
Definition slow_backend : Backend :=
  mkBackend
    (fun k => match k with
              | 0 => Resolved pending_status
              | 1 => Resolved processing_status
              | _ => Resolved completed_status
              end)
    (fun _ => Resolved generated_result).

(** A backend whose second status request fails. *)
Definition flaky_backend : Backend :=
  mkBackend
    (fun k => match k with 0 => Resolved pending_status | _ => Rejected end)
    (fun _ => Resolved generated_result).

(** A failed status whose cause is under [error] only. *)
Definition failed_with_error : JsObject :=
  {[ "status" := "failed"; "error" := "LLM timeout" ]}.

(** A failed status whose cause is under [error_message]. *)
Definition failed_with_error_message : JsObject :=
  {[ "status" := "failed"; "error_message" := "LLM timeout" ]}.

(** Responses a backend could give for a request it refuses. *)
Definition not_ready_response : Response :=
  mkResponse false 409 ∅ "NotReadyError: job is still processing".
Definition job_failed_response : Response :=
  mkResponse false 422 ∅ "JobFailedError: generation failed".
Definition unsupported_format_response : Response :=
  mkResponse false 400 ∅ "UnsupportedFormatError: exe".

(** A response whose content-disposition header carries a second quoted
    parameter after the file name. *)
Definition two_parameter_header : string :=
  "attachment; " +:+ filename_key +:+ "report.pdf" +:+ String JS.dquote "; size="
  +:+ String JS.dquote "1024" +:+ String JS.dquote "".

Definition two_parameter_response : Response :=
  mkResponse true 200 {[ "content-disposition" := two_parameter_header ]} "%PDF".

(** Decompose [es = pre ++ e :: post] for an explicit list [es] of at most
    three effects. *)
Ltac split_trace E pre :=
  destruct pre as [|? [|? [|? [|? ?]]]]; simpl in E; simplify_eq.

(** ** The rest of the [Generate] page *)

(** What the page handles of a [File] chosen by the user. *)
Record File : Type := mkFile {
  file_name : string;
  file_type : string;
  file_bytes : string
}.

(** A value appended to a [FormData]. *)
Inductive FormValue : Type :=
| FormText (text : string)
| FormFile (file : File).

(** A [FormData]: its entries in the order of the [append] calls. *)
Abbreviation FormData := (list (string * FormValue)).

(** [formData.getAll(key)]. *)
Definition getAll (key : string) (form : FormData) : list FormValue :=
  map snd (List.filter (fun entry => String.eqb (fst entry) key) form).

(** The callback of [matchingPrompts.filter], lines 55-57. *)
Definition matches_generation (p : Prompt.t) : bool :=
  String.eqb (Prompt.category p) "document_generation" && Prompt.is_active p.

(** The effect of lines 52-63, run when the document type or the prompt
    list changes; [promptsData] is [promptsData?.items]. *)
Definition defaultPromptEffect (promptsData : option (list Prompt.t))
    (st : GenerateState) : GenerateState :=
  if JS.truthy (selectedType st) then
    match promptsData with
    | Some items =>
        let matchingPrompts := List.filter matches_generation items in
        let defaultPrompt :=
          match List.find Prompt.is_default matchingPrompts with
          | Some p => Some p
          | None => head matchingPrompts
          end in
        match defaultPrompt, selectedPrompt st with
        | Some p, None => setSelectedPrompt (Some p) st
        | _, _ => st
        end
    | None => st
    end
  else st.

(** [generateMutation.mutationFn], lines 66-75: the form handed to
    [generateApi.generate]. *)
Definition mutationFn (files : list File) (st : GenerateState) : FormData :=
  [("document_type", FormText (selectedType st)); ("language", FormText (language st))]
  ++ (if JS.truthy (context st) then [("context", FormText (context st))] else [])
  ++ (if JS.truthy (textInput st) then [("text_input", FormText (textInput st))] else [])
  ++ map (fun file => ("reference_files", FormFile file)) files.

(** [handleGenerate], lines 126-136: the message of the error toast when the
    request is refused, or the form posted by [generateMutation.mutate()]. *)
Definition handleGenerate (files : list File) (st : GenerateState) : string + FormData :=
  if negb (JS.truthy (selectedType st)) then inl "Please select a document type"
  else if (length files =? 0) && negb (JS.truthy (JS.trim (textInput st)))
  then inl "Please enter requirements text or upload reference files"
  else inr (mutationFn files st).

(** [onDrop], lines 108-110: the updater given to [setFiles]. *)
Definition onDrop (acceptedFiles prev : list File) : list File := prev ++ acceptedFiles.

(** [prev.filter((_, i) => i !== index)] from position [i] on. *)
Fixpoint filter_other_index (index i : nat) (l : list File) : list File :=
  match l with
  | [] => []
  | file :: l' =>
      if negb (i =? index) then file :: filter_other_index index (S i) l'
      else filter_other_index index (S i) l'
  end.

(** [removeFile], lines 122-124: the updater given to [setFiles]. *)
Definition removeFile (index : nat) (prev : list File) : list File :=
  filter_other_index index 0 prev.

(** The condition of line 439 under which the download control is drawn. *)
Definition download_offered (st : GenerateState) : bool :=
  JS.truthy (JS.or_else (generatedContent st) "")
  && JS.truthy (JS.or_else (currentJobId st) "").

(** The toasts in a list of effects. *)
Fixpoint toasts (es : list Effect) : list Effect :=
  match es with
  | [] => []
  | ToastSuccess m :: es' => ToastSuccess m :: toasts es'
  | ToastError m :: es' => ToastError m :: toasts es'
  | _ :: es' => toasts es'
  end.

(** The files saved by a list of effects: name and bytes. *)
Fixpoint saved_files (es : list Effect) : list (string * string) :=
  match es with
  | [] => []
  | SaveFile name data :: es' => (name, data) :: saved_files es'
  | _ :: es' => saved_files es'
  end.

(** The fields of the state that polling must not touch are the same. *)
Definition same_inputs (a b : GenerateState) : Prop :=
  selectedType a = selectedType b /\ language a = language b
  /\ context a = context b /\ textInput a = textInput b
  /\ isDownloading a = isDownloading b
  /\ showFormatDropdown a = showFormatDropdown b
  /\ selectedPrompt a = selectedPrompt b
  /\ showPromptSelector a = showPromptSelector b.

(** ** The API client (api.ts) and the session store (useAuth.ts) *)

(** The store of [useAuth]; [user] is the body of [/auth/me]. *)
Record AuthState : Type := mkAuthState {
  user : option JsObject;
  token : option string;
  isAuthenticated : bool;
  isLoading : bool
}.

(** The browser as the client sees it: the store, the [token] item of
    [localStorage] and the address of the page.  The item [auth-storage]
    written by the [persist] middleware is another key and is left out. *)
Record Session : Type := mkSession {
  store : AuthState;
  stored_token : option string;
  href : string
}.

(** The outcome of a request made with [api]: the body of a response axios
    accepts, or an error with [error.response?.status]. *)
Inductive ApiReply (A : Type) : Type :=
| Answered (data : A)
| Refused (status : option Z).
Arguments Answered {A} data.
Arguments Refused {A} status.

(** Whether an async function returned or threw. *)
Inductive Settled : Type :=
| Fulfilled
| Threw.

(** The request interceptor, lines 14-20, on the headers of a request. *)
Definition requestInterceptor (s : Session) (request_headers : JsObject) : JsObject :=
  match stored_token s with
  | Some t =>
      if JS.truthy t then <["Authorization" := "Bearer " +:+ t]> request_headers
      else request_headers
  | None => request_headers
  end.

(** The response interceptors, lines 23-32: a response passes; an error
    with status 401 removes the token and sends the page to [/login]; the
    error is rejected again in every case. *)
Definition responseInterceptor {A : Type} (reply : ApiReply A) (s : Session)
  : Session * Reply A :=
  match reply with
  | Answered data => (s, Resolved data)
  | Refused status =>
      (if decide (status = Some 401%Z) then mkSession (store s) None "/login" else s,
       Rejected)
  end.

(** [String(v)] for a string property that may be missing. *)
Definition String_of (v : option string) : string := default "undefined" v.

(** [fetchUser], useAuth.ts lines 58-65. *)
Definition fetchUser (user_reply : ApiReply (option JsObject)) (s : Session) : Session :=
  let '(s1, reply) := responseInterceptor user_reply s in
  match reply with
  | Resolved body =>
      mkSession (mkAuthState body (token (store s1)) true (isLoading (store s1)))
        (stored_token s1) (href s1)
  | Rejected =>
      mkSession (mkAuthState None (token (store s1)) false (isLoading (store s1)))
        (stored_token s1) (href s1)
  end.

(** [set({ isLoading: v })]. *)
Definition setIsLoading (v : bool) (s : Session) : Session :=
  mkSession
    (mkAuthState (user (store s)) (token (store s)) (isAuthenticated (store s)) v)
    (stored_token s) (href s).

(** [login], useAuth.ts lines 32-42. *)
Definition login (login_reply : ApiReply JsObject)
    (user_reply : ApiReply (option JsObject)) (s : Session) : Session * Settled :=
  let s0 := setIsLoading true s in
  let '(s1, reply) := responseInterceptor login_reply s0 in
  match reply with
  | Resolved data =>
      let s2 :=
        mkSession
          (mkAuthState (user (store s1)) (data !! "access_token") true (isLoading (store s1)))
          (Some (String_of (data !! "access_token"))) (href s1) in
      (setIsLoading false (fetchUser user_reply s2), Fulfilled)
  | Rejected => (setIsLoading false s1, Threw)
  end.

(** [register], useAuth.ts lines 44-52. *)
Definition register (register_reply login_reply : ApiReply JsObject)
    (user_reply : ApiReply (option JsObject)) (s : Session) : Session * Settled :=
  let s0 := setIsLoading true s in
  let '(s1, reply) := responseInterceptor register_reply s0 in
  match reply with
  | Resolved _ =>
      let '(s2, settled) := login login_reply user_reply s1 in
      (setIsLoading false s2, settled)
  | Rejected => (setIsLoading false s1, Threw)
  end.

(** [logout], useAuth.ts lines 54-57. *)
Definition logout (s : Session) : Session :=
  mkSession (mkAuthState None None false (isLoading (store s))) None (href s).

(** A call of one of the store's actions with what the backend answers. *)
Inductive AuthAction : Type :=
| DoLogin (login_reply : ApiReply JsObject) (user_reply : ApiReply (option JsObject))
| DoRegister (register_reply login_reply : ApiReply JsObject)
    (user_reply : ApiReply (option JsObject))
| DoLogout
| DoFetchUser (user_reply : ApiReply (option JsObject)).

Definition perform (a : AuthAction) (s : Session) : Session :=
  match a with
  | DoLogin lr ur => (login lr ur s).1
  | DoRegister rr lr ur => (register rr lr ur s).1
  | DoLogout => logout s
  | DoFetchUser ur => fetchUser ur s
  end.

(** Actions performed one after the other. *)
Fixpoint perform_all (actions : list AuthAction) (s : Session) : Session :=
  match actions with
  | [] => s
  | a :: actions' => perform_all actions' (perform a s)
  end.

(** The store and the browser when the application starts logged out. *)
Definition logged_out : Session :=
  mkSession (mkAuthState None None false false) None "/".

(** [templatesApi.upload], api.ts lines 193-211: the form posted. *)
Definition templatesApi_upload (name document_type : string) (description : option string)
    (is_default : option bool) (template_file : File) : FormData :=
  [("name", FormText name); ("document_type", FormText document_type)]
  ++ (if JS.truthy (JS.or_else description "") then
        [("description", FormText (JS.or_else description ""))] else [])
  ++ [("is_default", FormText (if default false is_default then "true" else "false"));
      ("template_file", FormFile template_file)].

(** [documentsApi.upload], api.ts lines 71-88: the form posted. *)
Definition documentsApi_upload (file : File)
    (title project_id category_id tags : option string) : FormData :=
  let field (key : string) (v : option string) : FormData :=
    if JS.truthy (JS.or_else v "") then [(key, FormText (JS.or_else v ""))] else [] in
  [("file", FormFile file)]
  ++ field "title" title ++ field "project_id" project_id
  ++ field "category_id" category_id ++ field "tags" tags.

(** ** The [Templates] and [Documents] pages *)

(** The state [uploadData] of the [Templates] page. *)
Record UploadData : Type := mkUploadData {
  upload_name : string;
  upload_document_type : string;
  upload_description : string;
  upload_is_default : bool
}.

(** [handleUpload] of the [Templates] page: the message of the error toast
    when the upload is refused, or the form posted by
    [uploadMutation.mutate]. *)
Definition handleUpload (uploadFile : option File) (uploadData : UploadData)
  : string + FormData :=
  match uploadFile with
  | None => inl "Please select a template file"
  | Some file =>
      if negb (JS.truthy (JS.trim (upload_name uploadData)))
      then inl "Please enter a template name"
      else
        inr (templatesApi_upload (upload_name uploadData)
               (upload_document_type uploadData)
               (Some (upload_description uploadData))
               (Some (upload_is_default uploadData)) file)
  end.

(** What an upload of the [Documents] page settles to: accepted, or an
    error with [error.response?.data?.detail]. *)
Inductive UploadOutcome : Type :=
| Uploaded
| UploadFailed (detail : option string).

Record UploadRun : Type := mkUploadRun {
  posted : list FormData;     (* the forms posted, in order *)
  notices : list Effect;      (* the toasts of [onSuccess] and [onError] *)
  isUploading : bool;         (* the flag when [onDrop] has settled *)
  settled : Settled
}.

(** The [for] loop of [onDrop] of the [Documents] page: one
    [uploadMutation.mutateAsync(file)] after the other; the first one that
    rejects ends the loop and the function. *)
Fixpoint upload_each (upload : File -> UploadOutcome) (files : list File) : UploadRun :=
  match files with
  | [] => mkUploadRun [] [] false Fulfilled
  | file :: files' =>
      let form := documentsApi_upload file (Some (file_name file)) None None None in
      match upload file with
      | Uploaded =>
          let r := upload_each upload files' in
          mkUploadRun (form :: posted r)
            (ToastSuccess "Document uploaded successfully!" :: notices r)
            (isUploading r) (settled r)
      | UploadFailed detail =>
          mkUploadRun [form] [ToastError (JS.or_else detail "Upload failed")] true Threw
      end
  end.

(** [onDrop] of the [Documents] page. *)
Definition Documents_onDrop (upload : File -> UploadOutcome) (acceptedFiles : list File)
  : UploadRun :=
  upload_each upload acceptedFiles.

(** ** The prompt manager *)

(** [vars[key] = value] on an object created by [{}], for a string value.
    The key [__proto__] names the prototype accessor, whose setter ignores a
    value that is not an object; any other key becomes a property. *)
Definition assign (key value : string) (vars : JsObject) : JsObject :=
  if String.eqb key "__proto__" then vars else <[key := value]> vars.

(** [handleOpenTest]: the object given to [setTestVariables], built by
    [prompt.variables?.forEach] from an empty object. *)
Definition handleOpenTest (variables : option (list VariableSpec.t)) : JsObject :=
  fold_left
    (fun vars v =>
       assign (VariableSpec.name v) (JS.or_else (VariableSpec.default_value v) "") vars)
    (default [] variables) ∅.

(** The last declaration of [name] in a variable list. *)
Definition last_declared (name : string) (variables : list VariableSpec.t)
  : option VariableSpec.t :=
  List.find (fun v => String.eqb (VariableSpec.name v) name) (rev variables).

(** ** Sanity checks of the embedding *)

Example trim_example : JS.trim "  two words  " = "two words".
Proof. reflexivity. Qed.

Example parse_placeholder_example :
  JS.parse_source (placeholder_source "a.b")
  = Some [JS.Lit "{"; JS.Lit "{"; JS.Lit "a"; JS.Dot; JS.Lit "b"; JS.Lit "}"; JS.Lit "}"]%char.
Proof. reflexivity. Qed.

Example parse_quantifier_example : JS.parse_source (placeholder_source "c++") = None.
Proof. reflexivity. Qed.

Example substitution_patterns_example :
  JS.replace "x{{a}}y{{a}}" (literal "{{a}}") "<$&|$$|$`|$'|$1>"
  = "x<{{a}}|$|x|y{{a}}|$1>y<{{a}}|$|x{{a}}y||$1>".
Proof. reflexivity. Qed.

Example resolve_example :
  resolve (prompt_of "Project: {{name}} by {{who}} / {{other}} / {{name}}"
             [var "name" "" (Some "Inventory"); var "who" "the author" None;
              var "when" "" (Some "")])
  = Some "Project: Inventory by [the author] / {{other}} / Inventory".
Proof. reflexivity. Qed.

Example marker_example :
  resolve (prompt_of "{{a}} {{b}}" [var "a" "" None; var "b" "" (Some "")]) = Some "[a] [b]".
Proof. reflexivity. Qed.

Example match_filename_example :
  match_filename ("attachment; " +:+ filename_key +:+ "srs.docx" +:+ String JS.dquote "")
  = Some "srs.docx".
Proof. reflexivity. Qed.

Example match_filename_unquoted_example :
  match_filename "attachment; filename=srs.docx" = None.
Proof. reflexivity. Qed.

Example poll_trace_example :
  effects (onSuccess "job-1" 9 slow_backend initial_state)
  = [GetJobStatus "job-1" (Resolved pending_status); SetTimeout 2000%Z;
     GetJobStatus "job-1" (Resolved processing_status); SetTimeout 2000%Z;
     GetJobStatus "job-1" (Resolved completed_status);
     GetResult "job-1" (Resolved generated_result);
     ToastSuccess "Document generated successfully!"].
Proof. reflexivity. Qed.

(** ** Strings: basic facts *)

Lemma append_nil_r (s : string) : s +:+ "" = s.
Proof. induction s as [|c s IH]; simpl; [reflexivity | f_equal; exact IH]. Qed.

Lemma append_assoc (a b c : string) : (a +:+ b) +:+ c = a +:+ (b +:+ c).
Proof. induction a as [|x a IH]; simpl; [reflexivity | f_equal; exact IH]. Qed.

Lemma length_append (a b : string) :
  String.length (a +:+ b) = String.length a + String.length b.
Proof. induction a as [|x a IH]; simpl; [reflexivity | f_equal; exact IH]. Qed.

Lemma char_eqb_eq (a b : ascii) : JS.char_eqb a b = true <-> a = b.
Proof. unfold JS.char_eqb. apply Ascii.eqb_eq. Qed.

Lemma char_eqb_refl (a : ascii) : JS.char_eqb a a = true.
Proof. now apply char_eqb_eq. Qed.

Lemma all_chars_append (p : ascii -> bool) (a b : string) :
  all_chars p (a +:+ b) = all_chars p a && all_chars p b.
Proof.
  induction a as [|x a IH]; simpl; [reflexivity|].
  rewrite IH. now destruct (p x).
Qed.

(** *** [trim] *)

Lemma trimEnd_whitespace (s : string) :
  whitespace_only s = true -> JS.trimEnd s = "".
Proof.
  unfold whitespace_only.
  induction s as [|c s IH]; simpl; [reflexivity|].
  intros H. apply andb_prop in H as [Hc Hs].
  rewrite (IH Hs), Hc. reflexivity.
Qed.

Lemma trimEnd_not_whitespace (s : string) :
  whitespace_only s = false -> JS.trimEnd s <> "".
Proof.
  unfold whitespace_only.
  induction s as [|c s IH]; simpl; [discriminate|].
  intros H. destruct (JS.trimEnd s) eqn:E.
  - destruct (JS.is_white_space c) eqn:Hc; [|discriminate].
    simpl in H. exfalso. apply IH; [exact H | reflexivity].
  - discriminate.
Qed.

Lemma trimStart_whitespace (s : string) :
  whitespace_only (JS.trimStart s) = whitespace_only s.
Proof.
  unfold whitespace_only.
  induction s as [|c s IH]; simpl; [reflexivity|].
  destruct (JS.is_white_space c) eqn:Hc; simpl.
  - exact IH.
  - now rewrite Hc.
Qed.

(** The test [!textInput.trim()] of line 284 holds exactly for empty or
    whitespace-only text. *)
Lemma trim_blank (s : string) :
  negb (JS.truthy (JS.trim s)) = whitespace_only s.
Proof.
  unfold JS.trim. destruct (whitespace_only s) eqn:H.
  - rewrite trimEnd_whitespace; [reflexivity|]. now rewrite trimStart_whitespace.
  - pose proof (trimEnd_not_whitespace (JS.trimStart s)) as Hne.
    rewrite trimStart_whitespace in Hne. specialize (Hne H).
    destruct (JS.trimEnd (JS.trimStart s)); [contradiction | reflexivity].
Qed.

(** ** Polling *)

Lemma timeouts_app (es1 es2 : list Effect) :
  timeouts (es1 ++ es2) = timeouts es1 ++ timeouts es2.
Proof.
  induction es1 as [|e es1 IH]; simpl; [reflexivity|].
  destruct e; simpl; rewrite IH; reflexivity.
Qed.

Lemma status_requests_app (es1 es2 : list Effect) :
  status_requests (es1 ++ es2) = status_requests es1 + status_requests es2.
Proof.
  induction es1 as [|e es1 IH]; simpl; [reflexivity|].
  destruct e; simpl; rewrite IH; reflexivity.
Qed.

Lemma is_terminal_false (status : JsObject) :
  is_terminal status = false ->
  status !! "status" <> Some "completed" /\ status !! "status" <> Some "failed".
Proof.
  unfold is_terminal. intros H. apply orb_false_elim in H as [H1 H2].
  apply bool_decide_eq_false in H1. apply bool_decide_eq_false in H2. now split.
Qed.

(** A non-terminal status: the state is untouched and one timer is armed. *)
Lemma pollResult_nonterminal (jobId : string) (status : JsObject)
    (rr : Reply JsObject) (st : GenerateState) :
  is_terminal status = false ->
  pollResult jobId (Resolved status) rr st
  = (st, [GetJobStatus jobId (Resolved status); SetTimeout 2000]).
Proof.
  intros H. apply is_terminal_false in H as [H1 H2].
  unfold pollResult. rewrite !decide_False by assumption. reflexivity.
Qed.

(** A terminal status: one status request, no timer. *)
Lemma pollResult_terminal (jobId : string) (status : JsObject)
    (rr : Reply JsObject) (st : GenerateState) :
  is_terminal status = true ->
  timeouts (pollResult jobId (Resolved status) rr st).2 = []
  /\ status_requests (pollResult jobId (Resolved status) rr st).2 = 1.
Proof.
  unfold is_terminal, pollResult. intros H.
  destruct (decide (status !! "status" = Some "completed")) as [Hc|Hc].
  - destruct rr; simpl; split; reflexivity.
  - destruct (decide (status !! "status" = Some "failed")) as [Hf|Hf].
    + simpl; split; reflexivity.
    + rewrite !bool_decide_eq_false_2 in H by assumption. discriminate.
Qed.

(** A rejected status request: one status request, no timer. *)
Lemma pollResult_rejected (jobId : string) (rr : Reply JsObject) (st : GenerateState) :
  pollResult jobId Rejected rr st
  = (setCurrentJobId None (setIsPolling false st),
     [GetJobStatus jobId Rejected; ToastError "Failed to get generation status"]).
Proof. reflexivity. Qed.

(** While the backend reports non-terminal statuses the loop goes on. *)
Lemma pollLoop_nonterminal (fires n : nat) (jobId : string) (be : Backend)
    (st : GenerateState) :
  (forall k, n <= k < n + fires -> observed_nonterminal (status_reply be k) = true) ->
  final (pollLoop fires n jobId be st) = st
  /\ armed (pollLoop fires n jobId be st) = true
  /\ status_requests (effects (pollLoop fires n jobId be st)) = fires
  /\ timeouts (effects (pollLoop fires n jobId be st)) = replicate fires 2000%Z.
Proof.
  revert n. induction fires as [|fires IH]; intros n H; simpl.
  - repeat split; reflexivity.
  - pose proof (H n ltac:(lia)) as Hn.
    destruct (status_reply be n) as [status|] eqn:E; [|discriminate].
    simpl in Hn. apply negb_true_iff in Hn.
    rewrite (pollResult_nonterminal _ _ _ _ Hn). simpl.
    destruct (IH (S n)) as (Hf & Ha & Hs & Ht).
    { intros k Hk. apply H. lia. }
    rewrite Hf, Ha, Hs, Ht. repeat split; reflexivity.
Qed.

(** The first terminal status ends the loop, whatever time is left. *)
Lemma pollLoop_until_terminal (fires more n : nat) (jobId : string) (be : Backend)
    (st : GenerateState) :
  (forall k, n <= k < n + fires -> observed_nonterminal (status_reply be k) = true) ->
  observed_terminal (status_reply be (n + fires)) = true ->
  armed (pollLoop (S fires + more) n jobId be st) = false
  /\ status_requests (effects (pollLoop (S fires + more) n jobId be st)) = S fires
  /\ timeouts (effects (pollLoop (S fires + more) n jobId be st)) = replicate fires 2000%Z.
Proof.
  revert n. induction fires as [|fires IH]; intros n H Ht.
  - rewrite Nat.add_0_r in Ht.
    destruct (status_reply be n) as [status|] eqn:E; [|discriminate].
    simpl in Ht. simpl. rewrite E.
    destruct (pollResult_terminal jobId status (result_reply be n) st Ht) as [H1 H2].
    destruct (pollResult jobId (Resolved status) (result_reply be n) st) as [st' es].
    simpl in H1, H2. rewrite H1. simpl. repeat split; [exact H2 | exact H1].
  - pose proof (H n ltac:(lia)) as Hn.
    destruct (status_reply be n) as [status|] eqn:E; [|discriminate].
    simpl in Hn. apply negb_true_iff in Hn.
    change (S (S fires) + more) with (S (S fires + more)).
    cbn [pollLoop]. rewrite E, (pollResult_nonterminal _ _ _ _ Hn).
    cbn [timeouts status_requests effects armed app].
    destruct (IH (S n)) as (Ha & Hs & Hto).
    { intros k Hk. apply H. lia. }
    { replace (S n + fires) with (n + S fires) by lia. exact Ht. }
    rewrite Ha, Hs, Hto. repeat split; reflexivity.
Qed.

(** C2: after a job is submitted the client polls with a fixed backoff.  As
    long as every status observed so far is non-terminal, each observation
    armed exactly one timer of 2000 ms and a timer is still armed: the loop
    has not stopped.  When the next observed status is [completed] or
    [failed], that poll arms no timer and no status request follows it,
    however long the page is observed. *)
Theorem poll_backoff (jobId : string) (be : Backend) (st : GenerateState) (n : nat) :
  (forall k, k < n -> observed_nonterminal (status_reply be k) = true) ->
  (armed (onSuccess jobId n be st) = true
   /\ status_requests (effects (onSuccess jobId n be st)) = n
   /\ timeouts (effects (onSuccess jobId n be st)) = replicate n 2000%Z)
  /\ (observed_terminal (status_reply be n) = true ->
      forall more,
        armed (onSuccess jobId (S n + more) be st) = false
        /\ status_requests (effects (onSuccess jobId (S n + more) be st)) = S n
        /\ timeouts (effects (onSuccess jobId (S n + more) be st)) = replicate n 2000%Z).
Proof.
  intros H. unfold onSuccess. split.
  - destruct (pollLoop_nonterminal n 0 jobId be
                (setCurrentJobId (Some jobId) (setIsPolling true st))) as (_ & Ha & Hs & Ht).
    { intros k Hk. apply H. lia. }
    now repeat split.
  - intros Ht more.
    apply pollLoop_until_terminal; [intros k Hk; apply H; lia | exact Ht].
Qed.

Lemma poll_backoff_witness :
  armed (onSuccess "job-1" 2 slow_backend initial_state) = true
  /\ timeouts (effects (onSuccess "job-1" 2 slow_backend initial_state)) = [2000%Z; 2000%Z]
  /\ armed (onSuccess "job-1" 7 slow_backend initial_state) = false
  /\ status_requests (effects (onSuccess "job-1" 7 slow_backend initial_state)) = 3.
Proof.
  assert (H : forall k, k < 2 -> observed_nonterminal (status_reply slow_backend k) = true).
  { intros k Hk. destruct k as [|[|k]]; [reflexivity | reflexivity | lia]. }
  destruct (poll_backoff "job-1" slow_backend initial_state 2 H) as [(Ha & _ & Ht) Hstop].
  destruct (Hstop eq_refl 4) as (Ha' & Hs' & _).
  repeat split; assumption.
Defined.

(** *** The result is requested only after a completed status *)

Lemma result_follows_completed_nil : result_follows_completed [].
Proof. intros pre j r post H. destruct pre; discriminate. Qed.

Lemma result_follows_completed_app (es1 es2 : list Effect) :
  result_follows_completed es1 -> result_follows_completed es2 ->
  result_follows_completed (es1 ++ es2).
Proof.
  intros H1 H2 pre j r post E.
  apply app_eq_app in E as [l [[E1 E2] | [E1 E2]]].
  - destruct l as [|x l].
    + simpl in E2. rewrite app_nil_r in E1. subst pre.
      destruct (H2 [] j r post) as (pre' & status & Hp & _); [symmetry; exact E2|].
      destruct pre'; discriminate.
    + simpl in E2. injection E2 as Ex Epost. subst x.
      destruct (H1 pre j r l E1) as (pre' & status & Hp & Hs).
      now exists pre', status.
  - destruct (H2 l j r post E2) as (pre' & status & Hp & Hs).
    exists (es1 ++ pre'), status. subst. now rewrite app_assoc.
Qed.

Lemma pollResult_result_follows_completed (jobId : string)
    (sr rr : Reply JsObject) (st : GenerateState) :
  result_follows_completed (pollResult jobId sr rr st).2.
Proof.
  intros pre j r post E. unfold pollResult in E.
  destruct sr as [status|].
  - destruct (decide (status !! "status" = Some "completed")) as [Hc|Hc].
    + destruct rr; simpl in E; split_trace E pre; now exists [], status.
    + destruct (decide (status !! "status" = Some "failed")); simpl in E; split_trace E pre.
  - simpl in E. split_trace E pre.
Qed.

Lemma pollLoop_result_follows_completed (fires n : nat) (jobId : string)
    (be : Backend) (st : GenerateState) :
  result_follows_completed (effects (pollLoop fires n jobId be st)).
Proof.
  revert n st. induction fires as [|fires IH]; intros n st; simpl.
  - apply result_follows_completed_nil.
  - pose proof (pollResult_result_follows_completed jobId
                  (status_reply be n) (result_reply be n) st) as Hp.
    destruct (pollResult jobId (status_reply be n) (result_reply be n) st) as [st' es].
    simpl in Hp. destruct (timeouts es); simpl.
    + exact Hp.
    + apply result_follows_completed_app; [exact Hp | apply IH].
Qed.

(** C7: in every execution of the polling loop, whatever the backend
    answers and however long it runs, a result request is made only right
    after a status request for that job returned [completed]. *)
Theorem getResult_only_when_completed (jobId : string) (fires : nat)
    (be : Backend) (st : GenerateState)
    (pre : list Effect) (j : string) (reply : Reply JsObject) (post : list Effect) :
  effects (onSuccess jobId fires be st) = pre ++ GetResult j reply :: post ->
  exists pre' status,
    pre = pre' ++ [GetJobStatus j (Resolved status)]
    /\ status !! "status" = Some "completed".
Proof.
  unfold onSuccess. apply pollLoop_result_follows_completed.
Qed.

Lemma getResult_only_when_completed_witness :
  exists pre' status,
    [GetJobStatus "job-1" (Resolved pending_status); SetTimeout 2000%Z;
     GetJobStatus "job-1" (Resolved processing_status); SetTimeout 2000%Z;
     GetJobStatus "job-1" (Resolved completed_status)]
    = pre' ++ [GetJobStatus "job-1" (Resolved status)]
    /\ status !! "status" = Some "completed".
Proof.
  apply (getResult_only_when_completed "job-1" 5 slow_backend initial_state
           _ "job-1" (Resolved generated_result)
           [ToastSuccess "Document generated successfully!"]).
  reflexivity.
Defined.

(** *** A request that throws ends the loop *)

Lemma pollResult_throws (jobId : string) (sr rr : Reply JsObject) (st : GenerateState) :
  poll_throws sr rr = true ->
  (pollResult jobId sr rr st).1 = setCurrentJobId None (setIsPolling false st)
  /\ timeouts (pollResult jobId sr rr st).2 = []
  /\ status_requests (pollResult jobId sr rr st).2 = 1
  /\ error_toasts (pollResult jobId sr rr st).2 = ["Failed to get generation status"].
Proof.
  unfold poll_throws, pollResult. destruct sr as [status|]; intros H.
  - apply andb_prop in H as [Hc Hr]. apply bool_decide_eq_true in Hc.
    rewrite decide_True by assumption.
    destruct rr; [discriminate|]. simpl. repeat split; reflexivity.
  - simpl. repeat split; reflexivity.
Qed.

(** C10: when the status request or the result request of a poll throws,
    the loop stops there: no timer is armed, the current job id is cleared,
    polling is switched off, the user is told that fetching the status
    failed, and that poll's status request is the last one the loop makes,
    however long the page is observed afterwards. *)
Theorem poll_failure_stops_polling (jobId : string) (be : Backend)
    (st : GenerateState) (n more : nat) :
  poll_throws (status_reply be n) (result_reply be n) = true ->
  armed (pollLoop (S more) n jobId be st) = false
  /\ timeouts (effects (pollLoop (S more) n jobId be st)) = []
  /\ status_requests (effects (pollLoop (S more) n jobId be st)) = 1
  /\ currentJobId (final (pollLoop (S more) n jobId be st)) = None
  /\ isPolling (final (pollLoop (S more) n jobId be st)) = false
  /\ error_toasts (effects (pollLoop (S more) n jobId be st))
     = ["Failed to get generation status"].
Proof.
  intros H. simpl.
  destruct (pollResult_throws jobId _ _ st H) as (Hst & Ht & Hs & He).
  destruct (pollResult jobId (status_reply be n) (result_reply be n) st) as [st' es].
  simpl in *. rewrite Ht. simpl. subst st'. repeat split; assumption.
Qed.

Lemma poll_failure_stops_polling_witness :
  armed (pollLoop 4 1 "job-1" flaky_backend initial_state) = false
  /\ status_requests (effects (pollLoop 4 1 "job-1" flaky_backend initial_state)) = 1
  /\ currentJobId (final (pollLoop 4 1 "job-1" flaky_backend initial_state)) = None.
Proof.
  destruct (poll_failure_stops_polling "job-1" flaky_backend initial_state 1 3 eq_refl)
    as (Ha & _ & Hs & Hj & _).
  repeat split; assumption.
Defined.

(** *** The failure shown for a failed job *)

(** C4, as stated, does not hold: the cause shown for a failed job is not
    read from the [error] property of the status response.  With the cause
    under [error] only, the page shows its fallback text. *)
Lemma failure_cause_not_read_from_error :
  ~ (forall (status : JsObject) (jobId cause : string) (rr : Reply JsObject)
            (st : GenerateState),
        status !! "status" = Some "failed" ->
        status !! "error" = Some cause ->
        error_toasts (pollResult jobId (Resolved status) rr st).2 = [cause]).
Proof.
  intros H.
  specialize (H failed_with_error "job-1" "LLM timeout" Rejected initial_state
                eq_refl eq_refl).
  vm_compute in H. discriminate H.
Qed.

Lemma or_else_truthy (a : option string) (b : string) :
  JS.truthy b = true -> JS.truthy (JS.or_else a b) = true.
Proof.
  intros Hb. unfold JS.or_else.
  destruct a as [s|]; [|exact Hb].
  destruct (JS.truthy s) eqn:Hs; [exact Hs | exact Hb].
Qed.

(** C4, amended: the status response is read at [status] and
    [error_message].  When the observed status is [failed], the one error
    shown is the [error_message] property if it is present and not empty and
    the text [Generation failed] otherwise, so it is never empty; the
    [error] property plays no part. *)
Theorem failure_cause_read_from_error_message (status : JsObject) (jobId : string)
    (rr : Reply JsObject) (st : GenerateState) :
  status !! "status" = Some "failed" ->
  error_toasts (pollResult jobId (Resolved status) rr st).2
  = [JS.or_else (status !! "error_message") "Generation failed"]
  /\ JS.truthy (JS.or_else (status !! "error_message") "Generation failed") = true
  /\ (forall cause, status !! "error_message" = Some cause -> JS.truthy cause = true ->
      error_toasts (pollResult jobId (Resolved status) rr st).2 = [cause])
  /\ (forall e, error_toasts (pollResult jobId (Resolved (<["error" := e]> status)) rr st).2
                = error_toasts (pollResult jobId (Resolved status) rr st).2).
Proof.
  intros Hf.
  assert (Hnc : status !! "status" <> Some "completed") by (rewrite Hf; discriminate).
  assert (Hshown : error_toasts (pollResult jobId (Resolved status) rr st).2
                   = [JS.or_else (status !! "error_message") "Generation failed"]).
  { unfold pollResult. rewrite decide_False by exact Hnc.
    rewrite decide_True by exact Hf. reflexivity. }
  split; [exact Hshown|]. split; [now apply or_else_truthy|]. split.
  - intros cause Hc Ht. rewrite Hshown, Hc. simpl. now rewrite Ht.
  - intros e. rewrite Hshown. unfold pollResult.
    rewrite !lookup_insert_ne by discriminate.
    rewrite decide_False by exact Hnc. rewrite decide_True by exact Hf. reflexivity.
Qed.

Lemma failure_cause_read_from_error_message_witness :
  error_toasts (pollResult "job-1" (Resolved failed_with_error_message) Rejected initial_state).2
  = ["LLM timeout"].
Proof.
  destruct (failure_cause_read_from_error_message failed_with_error_message "job-1"
              Rejected initial_state eq_refl) as (_ & _ & H & _).
  apply (H "LLM timeout"); reflexivity.
Defined.

(** ** Download *)

(** C3, as stated, does not hold: two refusals that differ in status code and
    body reach the caller of [download] as the same error. *)
Lemma download_errors_not_distinct :
  ~ (forall (base jobId format : string) (fetch1 fetch2 : string -> Reply Response)
            (r1 r2 : Response),
        fetch1 (download_url base jobId format) = Resolved r1 ->
        fetch2 (download_url base jobId format) = Resolved r2 ->
        ok r1 = false -> ok r2 = false -> r1 <> r2 ->
        download base fetch1 jobId format <> download base fetch2 jobId format).
Proof.
  intros H.
  apply (H "/api/v1" "job-1" "docx"
           (fun _ => Resolved not_ready_response)
           (fun _ => Resolved job_failed_response)
           not_ready_response job_failed_response);
    try reflexivity.
  discriminate.
Qed.

(** C3, amended: whenever the download request is answered with a response
    that is not ok, whatever its status code and body, [download] throws the
    one error [Download failed], and [handleDownload] logs it, shows the one
    message [Failed to download document], saves no file and ends with the
    download flag cleared. *)
Theorem download_refusal_is_one_error (base : string) (fetch : string -> Reply Response)
    (toUpperCase : string -> string) (jobId format : string) (r r' : Response)
    (st : GenerateState) :
  fetch (download_url base jobId format) = Resolved r -> ok r = false ->
  fetch (download_url "/api/v1" jobId format) = Resolved r' -> ok r' = false ->
  currentJobId st = Some jobId -> JS.truthy jobId = true ->
  download base fetch jobId format = inl DownloadFailed
  /\ handleDownload fetch toUpperCase format st
     = (setIsDownloading false (setShowFormatDropdown false (setIsDownloading true st)),
        [ConsoleError "Download error:"; ToastError "Failed to download document"]).
Proof.
  intros Hr Hok Hr' Hok' Hj Ht. unfold download, handleDownload.
  rewrite Hr, Hok, Hj, Ht, Hr', Hok'. split; reflexivity.
Qed.

Lemma download_refusal_is_one_error_witness :
  download "/api/v1" (fun _ => Resolved not_ready_response) "job-1" "docx"
  = inl DownloadFailed
  /\ download "/api/v1" (fun _ => Resolved job_failed_response) "job-1" "docx"
     = inl DownloadFailed
  /\ error_toasts
       (handleDownload (fun _ => Resolved unsupported_format_response) (fun s => s) "exe"
          (setCurrentJobId (Some "job-1") initial_state)).2
     = ["Failed to download document"].
Proof.
  split; [|split].
  - apply (download_refusal_is_one_error "/api/v1" (fun _ => Resolved not_ready_response)
             (fun s => s) "job-1" "docx" not_ready_response not_ready_response
             (setCurrentJobId (Some "job-1") initial_state));
      reflexivity.
  - apply (download_refusal_is_one_error "/api/v1" (fun _ => Resolved job_failed_response)
             (fun s => s) "job-1" "docx" job_failed_response job_failed_response
             (setCurrentJobId (Some "job-1") initial_state));
      reflexivity.
  - rewrite (proj2 (download_refusal_is_one_error "/api/v1"
                      (fun _ => Resolved unsupported_format_response)
                      (fun s => s) "job-1" "exe"
                      unsupported_format_response unsupported_format_response
                      (setCurrentJobId (Some "job-1") initial_state)
                      eq_refl eq_refl eq_refl eq_refl eq_refl eq_refl)).
    reflexivity.
Defined.

(** C8, failing input: a response whose content-disposition header carries
    a second quoted parameter after the file name.  The group of line 158 is
    greedy and runs to the last double quote of the header, so the name
    returned is not the header's file name. *)
Theorem download_filename_overruns_quoted_value :
  two_parameter_header
  = "attachment; " +:+ filename_key +:+ "report.pdf" +:+ String JS.dquote "; size="
    +:+ String JS.dquote "1024" +:+ String JS.dquote ""
  /\ download "/api/v1" (fun _ => Resolved two_parameter_response) "job-1" "pdf"
     = inr (mkDownload "%PDF"
              ("report.pdf" +:+ String JS.dquote "; size=" +:+ String JS.dquote "1024"))
  /\ filename_for "pdf" two_parameter_response <> "report.pdf".
Proof.
  split; [reflexivity|]. split; [reflexivity|]. vm_compute. discriminate.
Qed.

(** ** Prompt pre-fill *)

(** C9: selecting a prompt never overwrites requirements text that is not
    blank.  When the text input holds a character that is not whitespace,
    the handler leaves it as it is while the selected prompt and the
    selector's visibility are updated; the text input is replaced, by the
    resolved prompt content, exactly when it is empty or whitespace-only. *)
Theorem select_prompt_keeps_requirements (prompt : Prompt.t) (st : GenerateState) :
  (whitespace_only (textInput st) = false ->
   exists st',
     selectPrompt prompt st
     = Some (st', [ToastSuccess ("Loaded prompt: " +:+ Prompt.name prompt)])
     /\ textInput st' = textInput st
     /\ selectedPrompt st' = Some prompt
     /\ showPromptSelector st' = false
     /\ st' = setShowPromptSelector false (setSelectedPrompt (Some prompt) st))
  /\ (whitespace_only (textInput st) = true ->
      forall content, resolve prompt = Some content ->
      exists st',
        selectPrompt prompt st
        = Some (st', [ToastSuccess ("Loaded prompt: " +:+ Prompt.name prompt)])
        /\ textInput st' = content
        /\ selectedPrompt st' = Some prompt
        /\ showPromptSelector st' = false).
Proof.
  unfold selectPrompt. rewrite trim_blank. split; intros Hw.
  - rewrite Hw. eexists. split; [reflexivity|]. now repeat split.
  - intros content Hc. rewrite Hw, Hc. eexists. split; [reflexivity|]. now repeat split.
Qed.

Lemma select_prompt_keeps_requirements_witness :
  exists st',
    selectPrompt (prompt_of "Project: {{name}}" [var "name" "" (Some "Inventory")])
      (setTextInput "  my notes " initial_state)
    = Some (st', [ToastSuccess "Loaded prompt: Sample"])
    /\ textInput st' = "  my notes "
    /\ selectedPrompt st'
       = Some (prompt_of "Project: {{name}}" [var "name" "" (Some "Inventory")])
    /\ showPromptSelector st' = false.
Proof.
  destruct (proj1 (select_prompt_keeps_requirements
                     (prompt_of "Project: {{name}}" [var "name" "" (Some "Inventory")])
                     (setTextInput "  my notes " initial_state)) eq_refl)
    as (st' & H1 & H2 & H3 & H4 & _).
  exists st'. repeat split; assumption.
Defined.

(** *** Patterns built from plain names *)

Lemma syntax_char_backslash (c : ascii) :
  JS.is_syntax_char c = false -> JS.char_eqb c JS.backslash = false.
Proof.
  intros H. destruct (JS.char_eqb c JS.backslash) eqn:E; [|reflexivity].
  apply char_eqb_eq in E. subst c. discriminate H.
Qed.

Lemma syntax_char_dot (c : ascii) :
  JS.is_syntax_char c = false -> JS.char_eqb c JS.dot = false.
Proof.
  intros H. destruct (JS.char_eqb c JS.dot) eqn:E; [|reflexivity].
  apply char_eqb_eq in E. subst c. discriminate H.
Qed.

Lemma literal_app (a b : string) : literal (a +:+ b) = literal a ++ literal b.
Proof. induction a as [|c a IH]; simpl; [reflexivity | now rewrite IH]. Qed.

Lemma parse_source_plain (name tail : string) (r : JS.RegExp) :
  plain_name name = true ->
  JS.parse_source tail = Some r ->
  JS.parse_source (name +:+ tail) = Some (literal name ++ r).
Proof.
  unfold plain_name. intros Hp Ht.
  induction name as [|c name IH]; simpl in *; [exact Ht|].
  apply andb_prop in Hp as [Hc Hn]. apply negb_true_iff in Hc.
  rewrite (syntax_char_backslash c Hc), (syntax_char_dot c Hc), Hc.
  now rewrite (IH Hn).
Qed.

Lemma parse_source_escaped_lbrace (s : string) :
  JS.parse_source (String JS.backslash (String JS.lbrace s))
  = match JS.parse_source s with
    | Some r => Some (JS.Lit JS.lbrace :: r)
    | None => None
    end.
Proof. reflexivity. Qed.

(** For a plain name the pattern of line 290 matches the placeholder text
    and nothing else. *)
Lemma parse_placeholder_source (name : string) :
  plain_name name = true ->
  JS.parse_source (placeholder_source name) = Some (literal (placeholder name)).
Proof.
  intros Hp. unfold placeholder_source, placeholder.
  change ("\{\{" +:+ name +:+ "\}\}")
    with (String JS.backslash (String JS.lbrace
            (String JS.backslash (String JS.lbrace (name +:+ "\}\}"))))).
  rewrite !parse_source_escaped_lbrace.
  rewrite (parse_source_plain name "\}\}" [JS.Lit "}"%char; JS.Lit "}"%char] Hp eq_refl).
  change ("{{" +:+ name +:+ "}}")
    with (String JS.lbrace (String JS.lbrace (name +:+ "}}"))).
  cbn [literal]. rewrite literal_app. reflexivity.
Qed.

Lemma match_here_literal (p s : string) :
  JS.match_here (literal p) s
  = match JS.strip_prefix p s with
    | Some rest => Some (p, rest)
    | None => None
    end.
Proof.
  revert s. induction p as [|a p IH]; intros s; simpl.
  - destruct s; reflexivity.
  - destruct s as [|c s]; [reflexivity|].
    destruct (JS.char_eqb a c) eqn:E; [|reflexivity].
    apply char_eqb_eq in E. subst c. rewrite IH.
    destruct (JS.strip_prefix p s); reflexivity.
Qed.

Lemma strip_prefix_append (p s rest : string) :
  JS.strip_prefix p s = Some rest -> s = p +:+ rest.
Proof.
  revert s. induction p as [|a p IH]; intros s H; simpl in *.
  - destruct s; now inversion H.
  - destruct s as [|c s]; [discriminate|].
    destruct (JS.char_eqb a c) eqn:E; [|discriminate].
    apply char_eqb_eq in E. subst c. now rewrite (IH s H).
Qed.

(** No occurrence of the pattern text: the replacement leaves the string
    as it is. *)
Lemma replace_from_absent (a : ascii) (p template s before : string) :
  includes s (String a p) = false ->
  JS.replace_from (literal (String a p)) template before s 0 = s.
Proof.
  revert before. induction s as [|c s IH]; intros before H.
  - reflexivity.
  - cbn [includes] in H.
    destruct (JS.strip_prefix (String a p) (String c s)) eqn:E; [discriminate|].
    cbn [JS.replace_from]. rewrite match_here_literal, E. now rewrite IH.
Qed.

Lemma replace_variable_absent (text : string) (v : VariableSpec.t) :
  plain_name (VariableSpec.name v) = true ->
  includes text (placeholder (VariableSpec.name v)) = false ->
  replace_variable text v = Some text.
Proof.
  intros Hp Hi. unfold replace_variable.
  rewrite (parse_placeholder_source _ Hp). unfold JS.replace.
  f_equal. apply (replace_from_absent "{"%char). exact Hi.
Qed.

Lemma replace_variables_absent (text : string) (vs : list VariableSpec.t) :
  declared_plain vs = true ->
  no_declared_placeholder vs text = true ->
  replace_variables text vs = Some text.
Proof.
  unfold declared_plain, no_declared_placeholder.
  induction vs as [|v vs IH]; simpl; intros Hp Hn; [reflexivity|].
  apply andb_prop in Hp as [Hp1 Hp2]. apply andb_prop in Hn as [Hn1 Hn2].
  apply negb_true_iff in Hn1.
  rewrite (replace_variable_absent text v Hp1 Hn1). now apply IH.
Qed.

(** C5, as stated, does not hold: resolving twice is not resolving once.
    A default value may itself hold a placeholder. *)
Lemma resolve_twice_differs :
  ~ (forall (content : string) (vs : list VariableSpec.t),
        resolve_twice content vs = replace_variables content vs).
Proof.
  intros H.
  specialize (H "{{a}}" [var "a" "" (Some "<{{a}}>")]).
  vm_compute in H. discriminate H.
Qed.

(** C5, amended: when the declared names hold no regular expression syntax
    character and the text holds no placeholder of a declared variable,
    resolution returns the text unchanged; so resolving a second time
    changes nothing whenever the text resolved once holds no declared
    placeholder. *)
Theorem resolve_resolved_text (vs : list VariableSpec.t) (text : string) :
  declared_plain vs = true ->
  no_declared_placeholder vs text = true ->
  replace_variables text vs = Some text
  /\ (forall content, replace_variables content vs = Some text ->
      resolve_twice content vs = replace_variables content vs).
Proof.
  intros Hp Hn.
  pose proof (replace_variables_absent text vs Hp Hn) as H.
  split; [exact H|].
  intros content Hc. unfold resolve_twice. now rewrite Hc.
Qed.

Lemma resolve_resolved_text_witness :
  replace_variables "Project: Inventory by {{other}}"
    [var "name" "" (Some "Inventory"); var "who" "the author" None]
  = Some "Project: Inventory by {{other}}".
Proof.
  apply (resolve_resolved_text
           [var "name" "" (Some "Inventory"); var "who" "the author" None]
           "Project: Inventory by {{other}}"); reflexivity.
Defined.

(** C1, failing input: a default value made of three dollar signs.  The
    replacement text is read as a substitution template, where two dollar
    signs stand for one, so the placeholder is not replaced by the default
    value as it is written. *)
Theorem default_value_not_inserted_verbatim :
  resolve (prompt_of "Price tier: {{tier}}" [var "tier" "" (Some "$$$")])
  = Some "Price tier: $$"
  /\ resolve_textually "Price tier: {{tier}}" [var "tier" "" (Some "$$$")]
     = "Price tier: $$$".
Proof. split; reflexivity. Qed.

(** C6, failing input: a declared name with a dot.  The name is read as a
    pattern in which the dot stands for any character, so the placeholder
    of the undeclared name [project_name] is substituted too. *)
Theorem undeclared_placeholder_substituted :
  resolve (prompt_of "{{project_name}} and {{project.name}}"
             [var "project.name" "" (Some "Inventory")])
  = Some "Inventory and Inventory"
  /\ includes "{{project_name}} and {{project.name}}" (placeholder "project_name") = true
  /\ includes "Inventory and Inventory" (placeholder "project_name") = false
  /\ "project_name" <> VariableSpec.name (var "project.name" "" (Some "Inventory")).
Proof. repeat split; try reflexivity. discriminate. Qed.

(** *** Plain names and dollar-free replacements: substitution is textual *)

Lemma GetSubstitution_dollar_free (matched before after template : string) :
  dollar_free template = true ->
  JS.GetSubstitution matched before after template = template.
Proof.
  unfold dollar_free.
  induction template as [|c t IH]; simpl; intros H; [reflexivity|].
  apply andb_prop in H as [Hc Ht]. apply negb_true_iff in Hc.
  rewrite Hc. now rewrite (IH Ht).
Qed.

(** Passing over the rest of a match. *)
Lemma replace_from_skip (re : JS.RegExp) (template m rest before : string) :
  JS.replace_from re template before (m +:+ rest) (String.length m)
  = JS.replace_from re template (before +:+ m) rest 0.
Proof.
  revert before. induction m as [|c m IH]; intros before.
  - simpl. now rewrite append_nil_r.
  - cbn [String.append String.length JS.replace_from].
    rewrite IH, append_assoc. reflexivity.
Qed.

Lemma replace_from_substitute (a : ascii) (p template : string) :
  dollar_free template = true ->
  forall (fuel : nat) (s before : string),
    String.length s <= fuel ->
    JS.replace_from (literal (String a p)) template before s 0
    = substitute_fuel fuel (String a p) template s.
Proof.
  intros Hd. induction fuel as [|fuel IH]; intros s before Hlen.
  - destruct s; [reflexivity | simpl in Hlen; lia].
  - cbn [substitute_fuel].
    destruct s as [|c s].
    + reflexivity.
    + cbn [JS.replace_from]. rewrite match_here_literal.
      destruct (JS.strip_prefix (String a p) (String c s)) as [rest|] eqn:E.
      * rewrite (GetSubstitution_dollar_free _ _ _ _ Hd).
        pose proof (strip_prefix_append _ _ _ E) as Hs.
        cbn [String.append] in Hs. injection Hs as -> ->.
        cbn [String.length]. rewrite replace_from_skip.
        f_equal. apply IH.
        simpl in Hlen. rewrite length_append in Hlen. lia.
      * f_equal. apply IH. simpl in Hlen. lia.
Qed.

Lemma replace_variable_textual (content : string) (v : VariableSpec.t) :
  plain_name (VariableSpec.name v) = true ->
  dollar_free (replacement v) = true ->
  replace_variable content v
  = Some (substitute (placeholder (VariableSpec.name v)) (replacement v) content).
Proof.
  intros Hp Hd. unfold replace_variable, substitute, JS.replace.
  rewrite (parse_placeholder_source _ Hp). f_equal.
  apply (replace_from_substitute "{"%char); [exact Hd | lia].
Qed.

(** X1: with names free of regular expression syntax and replacement texts
    free of dollar signs, the pre-fill is plain textual substitution: every
    declared placeholder becomes the default value or the marker. *)
Lemma replace_variables_textual (content : string) (vs : list VariableSpec.t) :
  declared_plain vs = true ->
  replacements_dollar_free vs = true ->
  replace_variables content vs = Some (resolve_textually content vs).
Proof.
  unfold declared_plain, replacements_dollar_free.
  revert content. induction vs as [|v vs IH]; simpl; intros content Hp Hd; [reflexivity|].
  apply andb_prop in Hp as [Hp1 Hp2]. apply andb_prop in Hd as [Hd1 Hd2].
  rewrite (replace_variable_textual content v Hp1 Hd1). now apply IH.
Qed.

(** *** Plain names: placeholders of undeclared names are kept *)

Lemma plain_not_lbrace (c : ascii) :
  JS.is_syntax_char c = false -> JS.char_eqb JS.lbrace c = false.
Proof.
  intros H. destruct (JS.char_eqb JS.lbrace c) eqn:E; [|reflexivity].
  apply char_eqb_eq in E. subst c. discriminate H.
Qed.

Lemma plain_not_rbrace (c : ascii) :
  JS.is_syntax_char c = false -> JS.char_eqb JS.rbrace c = false.
Proof.
  intros H. destruct (JS.char_eqb JS.rbrace c) eqn:E; [|reflexivity].
  apply char_eqb_eq in E. subst c. discriminate H.
Qed.

Lemma plain_name_not_lbrace (x : string) :
  plain_name x = true -> all_chars not_lbrace x = true.
Proof.
  unfold plain_name. induction x as [|c x IH]; simpl; intros H; [reflexivity|].
  apply andb_prop in H as [Hc Hx]. apply negb_true_iff in Hc.
  unfold not_lbrace at 1. rewrite (plain_not_lbrace c Hc). simpl. now apply IH.
Qed.

(** A text without opening brace cannot be matched across an opening brace. *)
Lemma strip_prefix_before_lbrace (w pre tail rest : string) :
  all_chars not_lbrace w = true ->
  JS.strip_prefix w (pre +:+ String JS.lbrace tail) = Some rest ->
  String.length w <= String.length pre.
Proof.
  revert pre. induction w as [|c w IH]; intros pre Hw H; simpl; [lia|].
  simpl in Hw. apply andb_prop in Hw as [Hc Hw].
  destruct pre as [|d pre]; cbn [String.append JS.strip_prefix] in H.
  - unfold not_lbrace in Hc. apply negb_true_iff in Hc.
    destruct (JS.char_eqb c JS.lbrace) eqn:E; [|discriminate].
    apply char_eqb_eq in E. subst c. now rewrite char_eqb_refl in Hc.
  - destruct (JS.char_eqb c d); [|discriminate].
    simpl. apply le_n_S. now apply (IH pre).
Qed.

(** A match of one placeholder never runs into the placeholder of a name
    that follows it. *)
Lemma placeholder_match_within (a x pre post rest : string) (c : ascii) :
  plain_name a = true ->
  JS.strip_prefix (placeholder a) (String c pre +:+ placeholder x +:+ post) = Some rest ->
  String.length (placeholder a) <= S (String.length pre).
Proof.
  intros Ha H. unfold placeholder in *.
  change ("{{" +:+ a +:+ "}}") with (String JS.lbrace (String JS.lbrace (a +:+ "}}"))) in *.
  change ("{{" +:+ x +:+ "}}" +:+ post)
    with (String JS.lbrace (String JS.lbrace (x +:+ "}}" +:+ post))) in H.
  assert (Hw : all_chars not_lbrace (a +:+ "}}") = true).
  { rewrite all_chars_append, (plain_name_not_lbrace a Ha). reflexivity. }
  cbn [String.append JS.strip_prefix] in H.
  destruct (JS.char_eqb JS.lbrace c); [|discriminate].
  destruct pre as [|d pre]; cbn [String.append JS.strip_prefix] in H.
  - rewrite char_eqb_refl in H.
    destruct (a +:+ "}}") as [|e w] eqn:E.
    + destruct a; discriminate E.
    + simpl in Hw. apply andb_prop in Hw as [He _].
      unfold not_lbrace in He. apply negb_true_iff in He.
      cbn [JS.strip_prefix] in H.
      destruct (JS.char_eqb e "{"%char) eqn:E'; [|discriminate].
      apply char_eqb_eq in E'. subst e. discriminate He.
  - destruct (JS.char_eqb JS.lbrace d); [|discriminate].
    pose proof (strip_prefix_before_lbrace _ _ _ _ Hw H) as Hlen.
    cbn [String.length]. lia.
Qed.

(** Where the pattern text does not start, one character is copied. *)
Lemma replace_from_no_match (p template before s : string) (c : ascii) :
  JS.strip_prefix p (String c s) = None ->
  JS.replace_from (literal p) template before (String c s) 0
  = String c (JS.replace_from (literal p) template (before +:+ String c "") s 0).
Proof.
  intros H. cbn [JS.replace_from]. now rewrite match_here_literal, H.
Qed.

(** Text without opening brace is copied. *)
Lemma replace_from_copy (p p' template w rest before : string) :
  p = String JS.lbrace p' ->
  all_chars not_lbrace w = true ->
  JS.replace_from (literal p) template before (w +:+ rest) 0
  = w +:+ JS.replace_from (literal p) template (before +:+ w) rest 0.
Proof.
  intros ->. revert before. induction w as [|c w IH]; intros before Hw.
  - simpl. now rewrite append_nil_r.
  - simpl in Hw. apply andb_prop in Hw as [Hc Hw].
    unfold not_lbrace in Hc. apply negb_true_iff in Hc.
    cbn [String.append]. rewrite replace_from_no_match.
    + rewrite (IH _ Hw), append_assoc. reflexivity.
    + cbn [JS.strip_prefix]. now rewrite Hc.
Qed.

(** Two plain names that differ: the placeholder of one is not a prefix of
    text starting with the placeholder of the other. *)
Lemma strip_prefix_other_name (a x tail : string) :
  plain_name a = true -> plain_name x = true -> a <> x ->
  JS.strip_prefix (a +:+ "}}") (x +:+ "}}" +:+ tail) = None.
Proof.
  unfold plain_name. revert x.
  induction a as [|c a IH]; intros x Ha Hx Hne.
  - destruct x as [|d x]; [contradiction|].
    simpl in Hx. apply andb_prop in Hx as [Hd _]. apply negb_true_iff in Hd.
    cbn [String.append JS.strip_prefix].
    change "}"%char with JS.rbrace. now rewrite (plain_not_rbrace d Hd).
  - simpl in Ha. apply andb_prop in Ha as [Hc Ha]. apply negb_true_iff in Hc.
    destruct x as [|d x]; cbn [String.append JS.strip_prefix].
    + destruct (JS.char_eqb c "}"%char) eqn:E; [|reflexivity].
      apply char_eqb_eq in E. subst c. discriminate Hc.
    + simpl in Hx. apply andb_prop in Hx as [_ Hx].
      destruct (JS.char_eqb c d) eqn:E; [|reflexivity].
      apply char_eqb_eq in E. subst d. apply IH; [exact Ha | exact Hx | congruence].
Qed.

Lemma placeholder_unfold (x : string) :
  placeholder x = String JS.lbrace (String JS.lbrace (x +:+ "}}")).
Proof. reflexivity. Qed.

(** The placeholder of another plain name is copied. *)
Lemma replace_from_other_placeholder (a x template post before : string) :
  plain_name a = true -> plain_name x = true -> a <> x ->
  JS.replace_from (literal (placeholder a)) template before (placeholder x +:+ post) 0
  = placeholder x
    +:+ JS.replace_from (literal (placeholder a)) template (before +:+ placeholder x) post 0.
Proof.
  intros Ha Hx Hne.
  assert (H0 : JS.strip_prefix (placeholder a)
                 (String JS.lbrace (String JS.lbrace (x +:+ "}}" +:+ post))) = None).
  { rewrite placeholder_unfold. cbn [JS.strip_prefix]. rewrite !char_eqb_refl.
    now apply strip_prefix_other_name. }
  assert (H1 : JS.strip_prefix (placeholder a)
                 (String JS.lbrace (x +:+ "}}" +:+ post)) = None).
  { rewrite placeholder_unfold. cbn [JS.strip_prefix]. rewrite char_eqb_refl.
    unfold plain_name in Hx. destruct x as [|d x]; cbn [String.append].
    - reflexivity.
    - simpl in Hx. apply andb_prop in Hx as [Hd _]. apply negb_true_iff in Hd.
      now rewrite (plain_not_lbrace d Hd). }
  rewrite (placeholder_unfold x) at 1 2. cbn [String.append]. rewrite append_assoc.
  rewrite (replace_from_no_match _ _ _ _ _ H0), (replace_from_no_match _ _ _ _ _ H1).
  rewrite <- append_assoc.
  rewrite (replace_from_copy (placeholder a) (String JS.lbrace (a +:+ "}}")));
    [| reflexivity | rewrite all_chars_append, (plain_name_not_lbrace x Hx); reflexivity].
  do 3 f_equal. rewrite placeholder_unfold, !append_assoc. reflexivity.
Qed.

Lemma replace_from_keeps_other (a x template : string) :
  plain_name a = true -> plain_name x = true -> a <> x ->
  forall (pre post before : string) (skip : nat),
    skip <= String.length pre ->
    exists pre' post',
      JS.replace_from (literal (placeholder a)) template before
        (pre +:+ placeholder x +:+ post) skip
      = pre' +:+ placeholder x +:+ post'.
Proof.
  intros Ha Hx Hne. induction pre as [|c pre IH]; intros post before skip Hskip.
  - simpl in Hskip. assert (skip = 0) as -> by lia.
    cbn [String.append]. rewrite (replace_from_other_placeholder a x _ _ _ Ha Hx Hne).
    exists "". eexists. reflexivity.
  - destruct skip as [|k].
    + destruct (JS.strip_prefix (placeholder a) (String c pre +:+ placeholder x +:+ post))
        as [rest|] eqn:E.
      * pose proof (placeholder_match_within a x pre post rest c Ha E) as Hlen.
        cbn [String.append JS.replace_from]. rewrite match_here_literal.
        cbn [String.append] in E. rewrite E.
        destruct (String.length (placeholder a)) as [|k] eqn:El.
        { unfold placeholder in El. discriminate El. }
        destruct (IH post (before +:+ String c "") k ltac:(lia)) as (pre' & post' & Hr).
        rewrite Hr. eexists (_ +:+ pre'), post'. now rewrite append_assoc.
      * cbn [String.append JS.replace_from]. rewrite match_here_literal.
        cbn [String.append] in E. rewrite E.
        destruct (IH post (before +:+ String c "") 0 ltac:(lia)) as (pre' & post' & Hr).
        rewrite Hr. exists (String c pre'), post'. reflexivity.
    + cbn [String.append JS.replace_from].
      simpl in Hskip.
      destruct (IH post (before +:+ String c "") k ltac:(lia)) as (pre' & post' & Hr).
      rewrite Hr. now exists pre', post'.
Qed.

(** X2: with declared names free of regular expression syntax, the
    placeholder of a plain name that is not declared stays in the text: wherever it
    stands in the content, the pre-fill returns a text that holds it. *)
Lemma undeclared_placeholder_kept (vs : list VariableSpec.t) (x pre post : string) :
  declared_plain vs = true ->
  plain_name x = true ->
  declared x vs = false ->
  exists pre' post',
    replace_variables (pre +:+ placeholder x +:+ post) vs
    = Some (pre' +:+ placeholder x +:+ post').
Proof.
  unfold declared_plain, declared.
  revert pre post. induction vs as [|v vs IH]; intros pre post Hp Hx Hd.
  - now exists pre, post.
  - simpl in Hp, Hd. apply andb_prop in Hp as [Hp1 Hp2].
    apply orb_false_elim in Hd as [Hd1 Hd2].
    apply String.eqb_neq in Hd1.
    cbn [replace_variables]. unfold replace_variable, JS.replace.
    rewrite (parse_placeholder_source _ Hp1).
    destruct (replace_from_keeps_other (VariableSpec.name v) x (replacement v)
                Hp1 Hx ltac:(congruence) pre post "" 0 ltac:(lia))
      as (pre1 & post1 & Hr).
    rewrite Hr. now apply IH.
Qed.

(** *** The file name of a download *)

(** No content-disposition header, an empty one, or one the pattern does
    not match: the name is [document.] followed by the requested format. *)
Lemma filename_for_default (format : string) (response : Response) :
  match headers response !! "content-disposition" with
  | Some contentDisposition => match_filename contentDisposition = None
  | None => True
  end ->
  filename_for format response = "document." +:+ format.
Proof.
  unfold filename_for.
  destruct (headers response !! "content-disposition") as [cd|]; [|reflexivity].
  intros ->. now destruct (JS.truthy cd).
Qed.

Lemma strip_prefix_app (p rest : string) : JS.strip_prefix p (p +:+ rest) = Some rest.
Proof.
  induction p as [|c p IH]; cbn [String.append JS.strip_prefix].
  - now destruct rest.
  - now rewrite char_eqb_refl.
Qed.

Lemma dot_plus_quote_no_quote (s : string) :
  all_chars not_dquote s = true -> dot_plus_quote s = None.
Proof.
  induction s as [|c s IH]; simpl; intros H; [reflexivity|].
  apply andb_prop in H as [_ Hs].
  destruct (JS.is_line_terminator c); [reflexivity|].
  rewrite (IH Hs). destruct s as [|q s]; [reflexivity|].
  simpl in Hs. apply andb_prop in Hs as [Hq _].
  unfold not_dquote in Hq. apply negb_true_iff in Hq. now rewrite Hq.
Qed.

Lemma dot_plus_quote_cons (c : ascii) (s : string) :
  dot_plus_quote (String c s)
  = if JS.is_line_terminator c then None
    else match dot_plus_quote s with
         | Some capture => Some (String c capture)
         | None =>
             match s with
             | String q _ =>
                 if JS.char_eqb q JS.dquote then Some (String c EmptyString) else None
             | EmptyString => None
             end
         end.
Proof. reflexivity. Qed.

Lemma dot_plus_quote_closing (post : string) :
  all_chars not_dquote post = true -> dot_plus_quote (String JS.dquote post) = None.
Proof.
  intros H. rewrite dot_plus_quote_cons.
  change (JS.is_line_terminator JS.dquote) with false. cbv iota.
  rewrite (dot_plus_quote_no_quote post H).
  destruct post as [|q post]; [reflexivity|].
  simpl in H. apply andb_prop in H as [Hq _].
  unfold not_dquote in Hq. apply negb_true_iff in Hq. now rewrite Hq.
Qed.

(** The group takes the quoted value when no double quote follows it. *)
Lemma dot_plus_quote_value (c : ascii) (v post : string) :
  all_chars not_line_terminator (String c v) = true ->
  all_chars not_dquote post = true ->
  dot_plus_quote (String c v +:+ String JS.dquote post) = Some (String c v).
Proof.
  intros Hv Hpost. revert c Hv. induction v as [|d v IH]; intros c Hv.
  - simpl in Hv. apply andb_prop in Hv as [Hc _].
    unfold not_line_terminator in Hc. apply negb_true_iff in Hc.
    cbn [String.append]. rewrite dot_plus_quote_cons, Hc.
    rewrite (dot_plus_quote_closing post Hpost). now rewrite char_eqb_refl.
  - cbn [all_chars] in Hv. apply andb_prop in Hv as [Hc Hv].
    unfold not_line_terminator in Hc. apply negb_true_iff in Hc.
    change (String c (String d v) +:+ String JS.dquote post)
      with (String c (String d v +:+ String JS.dquote post)).
    rewrite dot_plus_quote_cons, Hc. now rewrite (IH d Hv).
Qed.

Lemma match_filename_here (s rest capture : string) :
  JS.strip_prefix filename_key s = Some rest ->
  dot_plus_quote rest = Some capture ->
  match_filename s = Some capture.
Proof.
  intros H1 H2. destruct s; cbn [match_filename]; now rewrite H1, H2.
Qed.

Lemma match_filename_skip (pre s : string) :
  all_chars not_letter_f pre = true ->
  match_filename (pre +:+ s) = match_filename s.
Proof.
  induction pre as [|c pre IH]; intros H; [reflexivity|].
  simpl in H. apply andb_prop in H as [Hc Hp].
  unfold not_letter_f in Hc. apply negb_true_iff in Hc.
  cbn [String.append]. cbn [match_filename].
  assert (Hk : JS.strip_prefix filename_key (String c (pre +:+ s)) = None).
  { unfold filename_key. cbn [String.append JS.strip_prefix]. now rewrite Hc. }
  rewrite Hk. now apply IH.
Qed.

(** X3: a header with one quoted file name, as a server writes it after the
    disposition type: the name returned is the quoted value. *)
Lemma filename_for_quoted_value (format pre post : string) (c : ascii) (v : string)
    (response : Response) :
  headers response !! "content-disposition"
  = Some (pre +:+ filename_key +:+ String c v +:+ String JS.dquote post) ->
  all_chars not_letter_f pre = true ->
  all_chars not_line_terminator (String c v) = true ->
  all_chars not_dquote post = true ->
  filename_for format response = String c v.
Proof.
  intros Hh Hpre Hv Hpost. unfold filename_for. rewrite Hh.
  rewrite (match_filename_skip pre _ Hpre).
  rewrite (match_filename_here _ (String c v +:+ String JS.dquote post) (String c v)).
  - destruct (JS.truthy _) eqn:E; [reflexivity|].
    destruct pre; discriminate E.
  - apply strip_prefix_app.
  - now apply dot_plus_quote_value.
Qed.

(** ** More on polling *)

Lemma toasts_app (es1 es2 : list Effect) : toasts (es1 ++ es2) = toasts es1 ++ toasts es2.
Proof.
  induction es1 as [|e es1 IH]; simpl; [reflexivity|].
  destruct e; simpl; rewrite IH; reflexivity.
Qed.

Lemma same_inputs_refl (st : GenerateState) : same_inputs st st.
Proof. unfold same_inputs. now repeat split. Qed.

Lemma same_inputs_trans (a b c : GenerateState) :
  same_inputs a b -> same_inputs b c -> same_inputs a c.
Proof. unfold same_inputs. intros H1 H2. intuition congruence. Qed.

(** One invocation of [pollResult] either reschedules itself and changes
    nothing, or ends the loop with the polling flag off and one toast. *)
Lemma pollResult_shape (jobId : string) (sr rr : Reply JsObject) (st : GenerateState) :
  (exists status,
      sr = Resolved status /\ is_terminal status = false
      /\ pollResult jobId sr rr st = (st, [GetJobStatus jobId sr; SetTimeout 2000]))
  \/ (timeouts (pollResult jobId sr rr st).2 = []
      /\ isPolling (pollResult jobId sr rr st).1 = false
      /\ same_inputs st (pollResult jobId sr rr st).1
      /\ length (toasts (pollResult jobId sr rr st).2) = 1
      /\ (currentJobId (pollResult jobId sr rr st).1 = None
          \/ exists status result,
               sr = Resolved status /\ status !! "status" = Some "completed"
               /\ rr = Resolved result
               /\ generatedContent (pollResult jobId sr rr st).1 = result !! "content"
               /\ currentJobId (pollResult jobId sr rr st).1 = currentJobId st)).
Proof.
  destruct sr as [status|].
  - destruct (is_terminal status) eqn:Ht.
    + right. unfold pollResult.
      destruct (decide (status !! "status" = Some "completed")) as [Hc|Hc].
      * destruct rr as [result|]; simpl.
        -- repeat split; try reflexivity. right. exists status, result. now repeat split.
        -- repeat split; try reflexivity. now left.
      * destruct (decide (status !! "status" = Some "failed")) as [Hf|Hf].
        -- simpl. repeat split; try reflexivity. now left.
        -- unfold is_terminal in Ht.
           rewrite !bool_decide_eq_false_2 in Ht by assumption. discriminate.
    + left. exists status. repeat split; [exact Ht|]. now apply pollResult_nonterminal.
  - right. simpl. repeat split; try reflexivity. now left.
Qed.

Lemma pollLoop_flag (fires n : nat) (jobId : string) (be : Backend) (st : GenerateState) :
  isPolling st = true ->
  isPolling (final (pollLoop fires n jobId be st)) = armed (pollLoop fires n jobId be st).
Proof.
  revert n st. induction fires as [|fires IH]; intros n st Hp; simpl; [exact Hp|].
  destruct (pollResult_shape jobId (status_reply be n) (result_reply be n) st)
    as [(status & _ & _ & ->) | (Ht & Hf & _)].
  - simpl. now apply IH.
  - destruct (pollResult jobId (status_reply be n) (result_reply be n) st) as [st' es].
    simpl in *. rewrite Ht. simpl. exact Hf.
Qed.

(** X10: the polling flag, which draws the spinner and disables the
    Generate button, is on exactly while another invocation of [pollResult]
    is still to come: it is never left on after the loop has stopped and
    never off while the loop runs. *)
Theorem polling_flag_tracks_loop (jobId : string) (fires : nat) (be : Backend)
    (st : GenerateState) :
  isPolling (final (onSuccess jobId fires be st)) = armed (onSuccess jobId fires be st).
Proof. unfold onSuccess. now apply pollLoop_flag. Qed.

Lemma pollLoop_toasts (fires n : nat) (jobId : string) (be : Backend) (st : GenerateState) :
  length (toasts (effects (pollLoop fires n jobId be st)))
  = if armed (pollLoop fires n jobId be st) then 0 else 1.
Proof.
  revert n st. induction fires as [|fires IH]; intros n st; simpl; [reflexivity|].
  destruct (pollResult_shape jobId (status_reply be n) (result_reply be n) st)
    as [(status & _ & _ & ->) | (Ht & _ & _ & Hl & _)].
  - simpl. apply IH.
  - destruct (pollResult jobId (status_reply be n) (result_reply be n) st) as [st' es].
    simpl in *. rewrite Ht. simpl. exact Hl.
Qed.

(** X11: a job produces exactly one toast.  While the loop runs no toast is
    shown; when it has stopped exactly one has been shown, whatever the
    backend answered and however many polls it took. *)
Theorem polling_toasts_once (jobId : string) (fires : nat) (be : Backend)
    (st : GenerateState) :
  length (toasts (effects (onSuccess jobId fires be st)))
  = if armed (onSuccess jobId fires be st) then 0 else 1.
Proof. unfold onSuccess. apply pollLoop_toasts. Qed.

Lemma pollLoop_same_inputs (fires n : nat) (jobId : string) (be : Backend)
    (st : GenerateState) :
  same_inputs st (final (pollLoop fires n jobId be st)).
Proof.
  revert n st. induction fires as [|fires IH]; intros n st; simpl.
  - apply same_inputs_refl.
  - destruct (pollResult_shape jobId (status_reply be n) (result_reply be n) st)
      as [(status & _ & _ & ->) | (Ht & _ & Hs & _)].
    + simpl. apply IH.
    + destruct (pollResult jobId (status_reply be n) (result_reply be n) st) as [st' es].
      simpl in *. rewrite Ht. simpl. exact Hs.
Qed.

(** X12: polling never touches what the user entered.  The document type,
    the language, the context, the requirements text, the selected prompt,
    the two menus and the download flag are after any number of polls what
    they were when the job was submitted. *)
Theorem polling_keeps_inputs (jobId : string) (fires : nat) (be : Backend)
    (st : GenerateState) :
  same_inputs st (final (onSuccess jobId fires be st)).
Proof.
  unfold onSuccess.
  apply (same_inputs_trans _ (setCurrentJobId (Some jobId) (setIsPolling true st))).
  - unfold same_inputs. now repeat split.
  - apply pollLoop_same_inputs.
Qed.

Lemma pollLoop_stopped (fires n : nat) (jobId : string) (be : Backend) (st : GenerateState) :
  armed (pollLoop fires n jobId be st) = false ->
  currentJobId (final (pollLoop fires n jobId be st)) = None
  \/ exists k status result,
       status_reply be k = Resolved status /\ status !! "status" = Some "completed"
       /\ result_reply be k = Resolved result
       /\ generatedContent (final (pollLoop fires n jobId be st)) = result !! "content"
       /\ currentJobId (final (pollLoop fires n jobId be st)) = currentJobId st.
Proof.
  revert n st. induction fires as [|fires IH]; intros n st; simpl; [discriminate|].
  destruct (pollResult_shape jobId (status_reply be n) (result_reply be n) st)
    as [(status & _ & _ & ->) | (Ht & _ & _ & _ & Hend)].
  - simpl. apply IH.
  - destruct (pollResult jobId (status_reply be n) (result_reply be n) st) as [st' es].
    simpl in *. rewrite Ht. simpl. intros _.
    destruct Hend as [Hnone | (status & result & Hs & Hc & Hr & Hg & Hj)]; [now left|].
    right. exists n, status, result. now repeat split.
Qed.

(** X13: once the loop has stopped, the download control is drawn only for
    a job that completed.  If it is drawn then, the current job id is the
    job that was polled, some poll saw the status [completed] and the
    content shown is the [content] of the result fetched in that poll. *)
Theorem stopped_download_is_completed_job (jobId : string) (fires : nat) (be : Backend)
    (st : GenerateState) :
  armed (onSuccess jobId fires be st) = false ->
  download_offered (final (onSuccess jobId fires be st)) = true ->
  currentJobId (final (onSuccess jobId fires be st)) = Some jobId
  /\ exists k status result,
       status_reply be k = Resolved status /\ status !! "status" = Some "completed"
       /\ result_reply be k = Resolved result
       /\ generatedContent (final (onSuccess jobId fires be st)) = result !! "content".
Proof.
  unfold onSuccess. intros Ha Ho.
  destruct (pollLoop_stopped fires 0 jobId be _ Ha)
    as [Hnone | (k & status & result & Hs & Hc & Hr & Hg & Hj)].
  - unfold download_offered in Ho. rewrite Hnone in Ho.
    simpl in Ho. now rewrite andb_false_r in Ho.
  - split; [exact Hj|]. exists k, status, result. now repeat split.
Qed.

Lemma stopped_download_is_completed_job_witness :
  currentJobId (final (onSuccess "job-1" 5 slow_backend initial_state)) = Some "job-1"
  /\ exists k status result,
       status_reply slow_backend k = Resolved status
       /\ status !! "status" = Some "completed"
       /\ result_reply slow_backend k = Resolved result
       /\ generatedContent (final (onSuccess "job-1" 5 slow_backend initial_state))
          = result !! "content".
Proof.
  apply (stopped_download_is_completed_job "job-1" 5 slow_backend initial_state);
    reflexivity.
Defined.



(** ** More of the [Generate] page *)

Lemma state_eta (st : GenerateState) : setSelectedPrompt (selectedPrompt st) st = st.
Proof. now destruct st. Qed.

Lemma head_In (l : list Prompt.t) (p : Prompt.t) : head l = Some p -> In p l.
Proof. destruct l as [|q l]; [discriminate|]. intros [= ->]. now left. Qed.

(** X5: the automatic choice of a prompt never replaces a prompt that is
    already selected and changes nothing but the selected prompt (the
    requirements text is not pre-filled).  When it selects a prompt, a
    document type is selected and the prompt is an active prompt of the
    category [document_generation] from the list, a default one whenever
    the list holds an active default of that category; and it does select
    one whenever a type is selected, none is selected yet and the list holds
    such a prompt. *)
Theorem default_prompt_effect_choice (promptsData : option (list Prompt.t))
    (st : GenerateState) :
  (selectedPrompt st <> None -> defaultPromptEffect promptsData st = st)
  /\ defaultPromptEffect promptsData st
     = setSelectedPrompt (selectedPrompt (defaultPromptEffect promptsData st)) st
  /\ (forall p,
        selectedPrompt st = None ->
        selectedPrompt (defaultPromptEffect promptsData st) = Some p ->
        JS.truthy (selectedType st) = true
        /\ exists items,
             promptsData = Some items /\ In p items
             /\ Prompt.category p = "document_generation" /\ Prompt.is_active p = true
             /\ forall q, In q items -> matches_generation q = true ->
                  Prompt.is_default q = true -> Prompt.is_default p = true)
  /\ (forall items q,
        selectedPrompt st = None -> JS.truthy (selectedType st) = true ->
        promptsData = Some items -> In q items -> matches_generation q = true ->
        selectedPrompt (defaultPromptEffect promptsData st) <> None).
Proof.
  assert (Hsame : (selectedPrompt st <> None -> st = st)
    /\ st = setSelectedPrompt (selectedPrompt st) st
    /\ (forall p, selectedPrompt st = None -> selectedPrompt st = Some p ->
          JS.truthy (selectedType st) = true
          /\ exists items,
               promptsData = Some items /\ In p items
               /\ Prompt.category p = "document_generation" /\ Prompt.is_active p = true
               /\ forall q, In q items -> matches_generation q = true ->
                    Prompt.is_default q = true -> Prompt.is_default p = true)).
  { split; [reflexivity|]. split; [now rewrite state_eta|]. congruence. }
  destruct Hsame as (S1 & S2 & S3).
  unfold defaultPromptEffect.
  destruct (JS.truthy (selectedType st)) eqn:Ht;
    [|split; [exact S1|]; split; [exact S2|]; split; [exact S3|]; congruence].
  destruct promptsData as [items|];
    [|split; [exact S1|]; split; [exact S2|]; split; [exact S3|]; congruence].
  set (matching := List.filter matches_generation items).
  assert (Hm : forall x, In x matching -> In x items /\ matches_generation x = true).
  { intros x Hx. now apply filter_In in Hx. }
  assert (Hpick : forall d, In d matching ->
            (forall q, In q items -> matches_generation q = true ->
                       Prompt.is_default q = true -> Prompt.is_default d = true) ->
            selectedPrompt st = None ->
            forall p, selectedPrompt (setSelectedPrompt (Some d) st) = Some p ->
              JS.truthy (selectedType st) = true
              /\ exists items0,
                   Some items = Some items0 /\ In p items0
                   /\ Prompt.category p = "document_generation"
                   /\ Prompt.is_active p = true
                   /\ forall q, In q items0 -> matches_generation q = true ->
                        Prompt.is_default q = true -> Prompt.is_default p = true).
  { intros d Hin Hdef _ p Hp. simpl in Hp. injection Hp as <-.
    destruct (Hm d Hin) as [Hitems Hmatch].
    unfold matches_generation in Hmatch. apply andb_prop in Hmatch as [Hcat Hact].
    apply String.eqb_eq in Hcat.
    split; [exact Ht|]. exists items. now repeat split. }
  destruct (List.find Prompt.is_default matching) as [d|] eqn:Hfind.
  - apply find_some in Hfind as [Hin Hd].
    destruct (selectedPrompt st) as [cur|] eqn:Hsel.
    + split; [reflexivity|]. split; [now rewrite state_eta|]. split; congruence.
    + split; [congruence|]. split; [reflexivity|]. split.
      * intros p _ Hp.
        destruct (Hpick d Hin) with (p := p) as [_ Hex];
          [intros; exact Hd | first [reflexivity | exact Hsel] | exact Hp |].
        split; [reflexivity | exact Hex].
      * intros; discriminate.
  - destruct (head matching) as [h|] eqn:Hhead.
    + apply head_In in Hhead.
      destruct (selectedPrompt st) as [cur|] eqn:Hsel.
      * split; [reflexivity|]. split; [now rewrite state_eta|]. split; congruence.
      * split; [congruence|]. split; [reflexivity|]. split.
        -- intros p _ Hp.
           destruct (Hpick h Hhead) with (p := p) as [_ Hex];
             [| first [reflexivity | exact Hsel] | exact Hp
              | split; [reflexivity | exact Hex]].
           intros q Hq Hqm Hqd.
           pose proof (find_none _ _ Hfind q) as Hnone.
           rewrite Hnone in Hqd; [discriminate|].
           apply filter_In. now split.
        -- intros; discriminate.
    + split; [reflexivity|]. split; [now rewrite state_eta|]. split; [congruence|].
      intros items' q _ _ [= <-] Hq Hqm.
      assert (Hin : In q matching) by (apply filter_In; now split).
      destruct matching; [contradiction | discriminate].
Qed.

Lemma getAll_app (key : string) (a b : FormData) :
  getAll key (a ++ b) = getAll key a ++ getAll key b.
Proof. unfold getAll. now rewrite List.filter_app, List.map_app. Qed.

Lemma getAll_files (key : string) (files : list File) :
  getAll key (map (fun file => ("reference_files", FormFile file)) files)
  = if String.eqb "reference_files" key then map FormFile files else [].
Proof.
  unfold getAll. destruct (String.eqb "reference_files" key) eqn:E;
    induction files as [|f files IH]; cbn [map List.filter fst snd];
    rewrite ?E; cbn [map snd]; rewrite ?IH; reflexivity.
Qed.

(** X6: every form that [handleGenerate] lets through carries a document
    type that is not empty, the language, the reference files in the order
    they were added, and something to work from: at least one reference
    file, or the requirements text, which then holds a character that is not
    whitespace. *)
Theorem posted_form_carries_requirements (files : list File) (st : GenerateState)
    (form : FormData) :
  handleGenerate files st = inr form ->
  getAll "document_type" form = [FormText (selectedType st)]
  /\ JS.truthy (selectedType st) = true
  /\ getAll "language" form = [FormText (language st)]
  /\ getAll "reference_files" form = map FormFile files
  /\ (files <> []
      \/ (getAll "text_input" form = [FormText (textInput st)]
          /\ whitespace_only (textInput st) = false)).
Proof.
  unfold handleGenerate.
  destruct (JS.truthy (selectedType st)) eqn:Ht; simpl; [|discriminate].
  rewrite trim_blank.
  destruct ((length files =? 0) && whitespace_only (textInput st)) eqn:Hb; [discriminate|].
  intros [= <-]. unfold mutationFn.
  rewrite !getAll_app, !getAll_files.
  assert (Hc : forall key, key <> "context" ->
            getAll key (if JS.truthy (context st)
                        then [("context", FormText (context st))] else []) = []).
  { intros key Hk. destruct (JS.truthy (context st)); [|reflexivity].
    unfold getAll. cbn [List.filter fst]. apply String.eqb_neq in Hk.
    rewrite String.eqb_sym in Hk. now rewrite Hk. }
  assert (Hx : forall key, key <> "text_input" ->
            getAll key (if JS.truthy (textInput st)
                        then [("text_input", FormText (textInput st))] else []) = []).
  { intros key Hk. destruct (JS.truthy (textInput st)); [|reflexivity].
    unfold getAll. cbn [List.filter fst]. apply String.eqb_neq in Hk.
    rewrite String.eqb_sym in Hk. now rewrite Hk. }
  rewrite !Hc, !Hx by discriminate.
  repeat split; try reflexivity.
  apply andb_false_iff in Hb as [Hlen | Hw].
  - left. intros ->. discriminate Hlen.
  - right. split; [|exact Hw].
    destruct (textInput st) as [|c t] eqn:E; [discriminate Hw|]. reflexivity.
Qed.

Lemma posted_form_carries_requirements_witness :
  getAll "document_type"
    (mutationFn [] (mkState "srs" "vi" "" "Warehouse system" None false None false false None false))
  = [FormText "srs"]
  /\ getAll "text_input"
       (mutationFn [] (mkState "srs" "vi" "" "Warehouse system" None false None false false None false))
     = [FormText "Warehouse system"].
Proof.
  destruct (posted_form_carries_requirements []
              (mkState "srs" "vi" "" "Warehouse system" None false None false false None false)
              _ eq_refl) as (H1 & _ & _ & _ & [H | [H _]]).
  - now contradiction H.
  - split; [exact H1 | exact H].
Defined.

(** X7: [handleGenerate] refuses with a toast, and posts nothing, exactly
    when no document type is selected or there is neither a reference file
    nor requirements text with a character that is not whitespace; the
    missing type is reported first. *)
Theorem generate_refused_exactly (files : list File) (st : GenerateState) :
  ((exists message, handleGenerate files st = inl message)
   <-> (selectedType st = "" \/ (files = [] /\ whitespace_only (textInput st) = true)))
  /\ (selectedType st = "" ->
      handleGenerate files st = inl "Please select a document type")
  /\ (selectedType st <> "" -> files = [] -> whitespace_only (textInput st) = true ->
      handleGenerate files st
      = inl "Please enter requirements text or upload reference files").
Proof.
  unfold handleGenerate. rewrite trim_blank.
  destruct (selectedType st) as [|c t] eqn:Ht; simpl.
  - repeat split; try (intros; eauto; fail); try congruence.
  - destruct files as [|f files]; simpl.
    + destruct (whitespace_only (textInput st)) eqn:Hw.
      * repeat split; try congruence; eauto.
      * repeat split; try congruence.
        -- intros [m Hm]. discriminate Hm.
        -- intros [H | [_ H]]; discriminate H.
    + repeat split; try congruence.
      * intros [m Hm]. discriminate Hm.
      * intros [H | [H _]]; discriminate H.
Qed.

Lemma filter_other_index_spec (index i : nat) (l : list File) :
  filter_other_index index i l
  = if index <? i then l else take (index - i) l ++ drop (S (index - i)) l.
Proof.
  revert i. induction l as [|f l IH]; intros i; simpl.
  - destruct (index <? i); [reflexivity|]. now rewrite take_nil.
  - rewrite IH. destruct (i =? index) eqn:E; simpl.
    + apply Nat.eqb_eq in E. subst i.
      destruct (index <? S index) eqn:E1; [|apply Nat.ltb_ge in E1; lia].
      destruct (index <? index) eqn:E2; [apply Nat.ltb_lt in E2; lia|].
      rewrite Nat.sub_diag. reflexivity.
    + apply Nat.eqb_neq in E.
      destruct (index <? i) eqn:E1.
      * apply Nat.ltb_lt in E1.
        destruct (index <? S i) eqn:E2; [reflexivity | apply Nat.ltb_ge in E2; lia].
      * apply Nat.ltb_ge in E1.
        destruct (index <? S i) eqn:E2; [apply Nat.ltb_lt in E2; lia|].
        replace (index - i) with (S (index - S i)) by lia. reflexivity.
Qed.

(** X8: [removeFile] takes out the file at the index and nothing else: the
    files before it and after it stay, in order.  An index past the end
    removes nothing, and removing the file a drop has just added gives back
    the list from before the drop. *)
Theorem remove_file_splits (index : nat) (prev : list File) :
  removeFile index prev = take index prev ++ drop (S index) prev
  /\ (length prev <= index -> removeFile index prev = prev)
  /\ (index < length prev -> S (length (removeFile index prev)) = length prev)
  /\ (forall file, removeFile (length prev) (onDrop [file] prev) = prev).
Proof.
  assert (H : forall i l, removeFile i l = take i l ++ drop (S i) l).
  { intros i l. unfold removeFile. rewrite filter_other_index_spec.
    simpl. now rewrite Nat.sub_0_r. }
  split; [apply H|]. split; [|split].
  - intros Hle. rewrite H, take_ge, drop_ge by lia. apply app_nil_r.
  - intros Hlt. rewrite H, length_app, length_take, length_drop. lia.
  - intros file. rewrite H. unfold onDrop.
    rewrite take_app_length, drop_app_ge by lia.
    replace (S (length prev) - length prev) with 1 by lia.
    simpl. apply app_nil_r.
Qed.

(** ** More on downloads *)

Lemma match_filename_needs_quote (s : string) :
  all_chars not_dquote s = true -> match_filename s = None.
Proof.
  induction s as [|c s IH]; intros H.
  - reflexivity.
  - cbn [match_filename].
    destruct (JS.strip_prefix filename_key (String c s)) as [rest|] eqn:E.
    + apply strip_prefix_append in E. rewrite E, all_chars_append in H.
      discriminate H.
    + apply IH. simpl in H. now apply andb_prop in H as [_ H].
Qed.

(** X4: a successful download whose response has no content-disposition
    header, or one without any double quote (an unquoted file name, for
    instance), is named [document.] followed by the requested format, and
    its bytes are the response body. *)
Theorem download_without_quoted_name (base : string) (fetch : string -> Reply Response)
    (jobId format : string) (response : Response) :
  fetch (download_url base jobId format) = Resolved response ->
  ok response = true ->
  match headers response !! "content-disposition" with
  | Some contentDisposition => all_chars not_dquote contentDisposition = true
  | None => True
  end ->
  download base fetch jobId format
  = inr (mkDownload (body response) ("document." +:+ format)).
Proof.
  intros Hf Hok Hh. unfold download. rewrite Hf, Hok. cbn [negb].
  do 2 f_equal. apply filename_for_default.
  destruct (headers response !! "content-disposition") as [cd|]; [|exact I].
  now apply match_filename_needs_quote.
Qed.

Lemma download_without_quoted_name_witness :
  download "/api/v1"
    (fun _ => Resolved (mkResponse true 200
                          {[ "content-disposition" := "attachment; filename=srs.md" ]} "# SRS"))
    "job-1" "md"
  = inr (mkDownload "# SRS" "document.md").
Proof.
  apply (download_without_quoted_name "/api/v1"
           (fun _ => Resolved (mkResponse true 200
                                 {[ "content-disposition" := "attachment; filename=srs.md" ]}
                                 "# SRS"))
           "job-1" "md"
           (mkResponse true 200
              {[ "content-disposition" := "attachment; filename=srs.md" ]} "# SRS"));
    reflexivity.
Defined.

Lemma filename_for_quoted_value_witness :
  filename_for "docx"
    (mkResponse true 200
       {[ "content-disposition" :=
            "attachment; " +:+ filename_key +:+ "srs.docx" +:+ String JS.dquote "" ]} "PK")
  = "srs.docx".
Proof.
  apply (filename_for_quoted_value "docx" "attachment; " "" "s"%char "rs.docx");
    reflexivity.
Defined.

(** X9: [handleDownload] always settles.  Whatever the network does, it
    shows exactly one toast and changes nothing of the state but the
    download flag and the format menu.  Without a current job it changes
    nothing at all; with one, the download flag is off and the menu closed
    when it returns.  A file is saved only for a response that is ok, and
    then it is one file, holding the response body under the name worked
    out from the header. *)
Theorem handleDownload_settles (fetch : string -> Reply Response)
    (toUpperCase : string -> string) (format : string) (st : GenerateState) :
  length (toasts (handleDownload fetch toUpperCase format st).2) = 1
  /\ (handleDownload fetch toUpperCase format st).1
     = setShowFormatDropdown
         (showFormatDropdown (handleDownload fetch toUpperCase format st).1)
         (setIsDownloading (isDownloading (handleDownload fetch toUpperCase format st).1) st)
  /\ (JS.truthy (JS.or_else (currentJobId st) "") = false ->
      (handleDownload fetch toUpperCase format st).1 = st
      /\ saved_files (handleDownload fetch toUpperCase format st).2 = [])
  /\ (JS.truthy (JS.or_else (currentJobId st) "") = true ->
      isDownloading (handleDownload fetch toUpperCase format st).1 = false
      /\ showFormatDropdown (handleDownload fetch toUpperCase format st).1 = false)
  /\ (saved_files (handleDownload fetch toUpperCase format st).2 = []
      \/ exists jobId response,
           currentJobId st = Some jobId
           /\ fetch (download_url "/api/v1" jobId format) = Resolved response
           /\ ok response = true
           /\ saved_files (handleDownload fetch toUpperCase format st).2
              = [(filename_for format response, body response)]).
Proof.
  unfold handleDownload.
  destruct (currentJobId st) as [jobId|] eqn:Hj; cbn [JS.or_else].
  - destruct (JS.truthy jobId) eqn:Ht; cbn [negb].
    + assert (Hno : JS.truthy jobId <> false) by congruence.
      destruct (fetch (download_url "/api/v1" jobId format)) as [response|] eqn:Hf.
      * destruct (ok response) eqn:Hok; cbn [negb fst snd].
        -- split; [reflexivity|]. split; [reflexivity|]. split; [intros Hx; contradiction|].
           split; [now split|]. right. exists jobId, response. now repeat split.
        -- split; [reflexivity|]. split; [reflexivity|]. split; [intros Hx; contradiction|].
           split; [now split|]. now left.
      * cbn [fst snd]. split; [reflexivity|]. split; [reflexivity|].
        split; [intros Hx; contradiction|]. split; [now split|]. now left.
    + cbn [fst snd]. split; [reflexivity|]. split; [now destruct st|].
      split; [now split|]. split; [intros Hx; cbn in Hx; congruence|]. now left.
  - cbn [fst snd]. split; [reflexivity|]. split; [now destruct st|].
    split; [now split|]. split; [intros Hx; cbn in Hx; congruence|]. now left.
Qed.

(** ** Witnesses for the pre-fill lemmas *)

Lemma replace_variables_textual_witness :
  replace_variables "Project: {{name}} by {{who}}"
    [var "name" "" (Some "Inventory"); var "who" "the author" None]
  = Some (resolve_textually "Project: {{name}} by {{who}}"
            [var "name" "" (Some "Inventory"); var "who" "the author" None]).
Proof.
  apply (replace_variables_textual "Project: {{name}} by {{who}}"
           [var "name" "" (Some "Inventory"); var "who" "the author" None]);
    reflexivity.
Defined.

Lemma undeclared_placeholder_kept_witness :
  exists pre' post',
    replace_variables ("Dear {{name}}, " +:+ placeholder "other" +:+ " and {{name}}")
      [var "name" "" (Some "Ann")]
    = Some (pre' +:+ placeholder "other" +:+ post').
Proof.
  apply (undeclared_placeholder_kept [var "name" "" (Some "Ann")] "other"
           "Dear {{name}}, " " and {{name}}"); reflexivity.
Defined.

(** ** The session store and the interceptors *)

(** X15: [login] always ends with the loading flag off.  A refused login
    throws and leaves the user, the token and the authenticated flag of the
    store as they were; it leaves the stored token and the address alone
    too unless the status is 401, in which case the interceptor removes the
    stored token and sends the page to [/login].  An accepted login never
    throws, even when the profile request fails: the store then holds the
    new token while the authenticated flag is on exactly when the profile
    request was answered. *)
Theorem login_settles (login_reply : ApiReply JsObject)
    (user_reply : ApiReply (option JsObject)) (s : Session) :
  isLoading (store (login login_reply user_reply s).1) = false
  /\ (forall status, login_reply = Refused status ->
        (login login_reply user_reply s).2 = Threw
        /\ user (store (login login_reply user_reply s).1) = user (store s)
        /\ token (store (login login_reply user_reply s).1) = token (store s)
        /\ isAuthenticated (store (login login_reply user_reply s).1)
           = isAuthenticated (store s)
        /\ (status <> Some 401%Z ->
            stored_token (login login_reply user_reply s).1 = stored_token s
            /\ href (login login_reply user_reply s).1 = href s)
        /\ (status = Some 401%Z ->
            stored_token (login login_reply user_reply s).1 = None
            /\ href (login login_reply user_reply s).1 = "/login"))
  /\ (forall data, login_reply = Answered data ->
        (login login_reply user_reply s).2 = Fulfilled
        /\ token (store (login login_reply user_reply s).1) = data !! "access_token"
        /\ (isAuthenticated (store (login login_reply user_reply s).1) = true
            <-> exists body, user_reply = Answered body)).
Proof.
  unfold login, fetchUser, responseInterceptor.
  destruct login_reply as [data|status].
  - destruct user_reply as [body|st]; [|destruct (decide (st = Some 401%Z))];
      cbn; (split; [reflexivity|]); (split; [intros ? [=]|]);
      intros d [= <-]; (split; [reflexivity|]); (split; [reflexivity|]);
      (split; [intros Hx; try discriminate Hx; eauto | intros [b Hb]; now try discriminate Hb]).
  - destruct (decide (status = Some 401%Z)) as [He|Hne];
      cbn; (split; [reflexivity|]); (split; [|intros ? [=]]);
      intros st [= <-]; (split; [reflexivity|]); (split; [reflexivity|]);
      (split; [reflexivity|]); (split; [reflexivity|]);
      (split; [intros Hx; try contradiction; now split
              | intros Hx; try contradiction; now split]).
Qed.

Lemma login_loading_off (login_reply : ApiReply JsObject)
    (user_reply : ApiReply (option JsObject)) (s : Session) :
  isLoading (store (login login_reply user_reply s).1) = false.
Proof.
  unfold login, fetchUser, responseInterceptor.
  destruct login_reply as [data|status].
  - destruct user_reply as [body|st]; [reflexivity|]. now destruct (decide _).
  - now destruct (decide _).
Qed.

Lemma fetchUser_invariant (user_reply : ApiReply (option JsObject)) (s : Session) :
  isLoading (store (fetchUser user_reply s)) = isLoading (store s)
  /\ (user (store (fetchUser user_reply s)) <> None ->
      isAuthenticated (store (fetchUser user_reply s)) = true).
Proof.
  unfold fetchUser, responseInterceptor.
  destruct user_reply as [body|status].
  - cbn. now split.
  - destruct (decide _); cbn; split; try reflexivity; intros H; now contradiction H.
Qed.

Lemma login_invariant (login_reply : ApiReply JsObject)
    (user_reply : ApiReply (option JsObject)) (s : Session) :
  (user (store s) <> None -> isAuthenticated (store s) = true) ->
  user (store (login login_reply user_reply s).1) <> None ->
  isAuthenticated (store (login login_reply user_reply s).1) = true.
Proof.
  intros Hinv. unfold login.
  destruct login_reply as [data|status].
  - unfold responseInterceptor.
    match goal with
    | |- context [fetchUser user_reply ?s2] =>
        destruct (fetchUser_invariant user_reply s2) as [_ H]
    end.
    cbn in *. exact H.
  - unfold responseInterceptor. destruct (decide _); cbn; exact Hinv.
Qed.

Lemma perform_invariant (a : AuthAction) (s : Session) :
  isLoading (store s) = false ->
  (user (store s) <> None -> isAuthenticated (store s) = true) ->
  isLoading (store (perform a s)) = false
  /\ (user (store (perform a s)) <> None -> isAuthenticated (store (perform a s)) = true).
Proof.
  intros Hl Hinv. destruct a as [lr ur | rr lr ur | | ur]; cbn [perform].
  - split; [apply login_loading_off | now apply login_invariant].
  - unfold register. destruct rr as [data|status]; unfold responseInterceptor.
    + destruct (login lr ur (setIsLoading true s)) as [s2 settled2] eqn:E.
      cbn. split; [reflexivity|].
      pose proof (login_invariant lr ur (setIsLoading true s) Hinv) as H.
      rewrite E in H. exact H.
    + destruct (decide _); cbn; split; try reflexivity; exact Hinv.
  - cbn. split; [exact Hl|]. intros H. now contradiction H.
  - destruct (fetchUser_invariant ur s) as [H1 H2]. split; [congruence | exact H2].
Qed.

(** X16: whatever actions of the store are performed, in whatever order and
    whatever the backend answers, once each has settled the loading flag is
    off and a user is held only while the authenticated flag is on. *)
Theorem store_invariant (actions : list AuthAction) (s : Session) :
  isLoading (store s) = false ->
  (user (store s) <> None -> isAuthenticated (store s) = true) ->
  isLoading (store (perform_all actions s)) = false
  /\ (user (store (perform_all actions s)) <> None ->
      isAuthenticated (store (perform_all actions s)) = true).
Proof.
  revert s. induction actions as [|a actions IH]; intros s Hl Hinv; cbn [perform_all].
  - now split.
  - destruct (perform_invariant a s Hl Hinv) as [Hl' Hinv']. now apply IH.
Qed.

Lemma store_invariant_witness :
  isLoading
    (store (perform_all
              [DoLogin (Refused (Some 401%Z)) (Refused None);
               DoLogin (Answered {[ "access_token" := "abc" ]}) (Answered (Some ∅));
               DoFetchUser (Refused (Some 500%Z))]
              logged_out)) = false.
Proof.
  apply (store_invariant
           [DoLogin (Refused (Some 401%Z)) (Refused None);
            DoLogin (Answered {[ "access_token" := "abc" ]}) (Answered (Some ∅));
            DoFetchUser (Refused (Some 500%Z))]
           logged_out); [reflexivity | intros H; now contradiction H].
Defined.

(** X17: after an accepted login whose token is not empty, every request
    carries that token: the interceptor sets the [Authorization] header to
    [Bearer] and the token, and leaves the other headers as they are,
    provided the profile request made by the login was not answered 401. *)
Theorem authorized_after_login (data : JsObject) (t : string)
    (user_reply : ApiReply (option JsObject)) (s : Session) (request_headers : JsObject) :
  data !! "access_token" = Some t -> JS.truthy t = true ->
  user_reply <> Refused (Some 401%Z) ->
  requestInterceptor (login (Answered data) user_reply s).1 request_headers
    !! "Authorization" = Some ("Bearer " +:+ t)
  /\ forall key, key <> "Authorization" ->
       requestInterceptor (login (Answered data) user_reply s).1 request_headers !! key
       = request_headers !! key.
Proof.
  intros Hd Ht Hu.
  assert (Hs : stored_token (login (Answered data) user_reply s).1 = Some t).
  { unfold login, fetchUser, responseInterceptor. rewrite Hd.
    destruct user_reply as [body|status]; [reflexivity|].
    destruct (decide (status = Some 401%Z)) as [->|Hne]; [now contradiction Hu | reflexivity]. }
  unfold requestInterceptor. rewrite Hs, Ht. split.
  - apply lookup_insert_eq.
  - intros key Hk. now apply lookup_insert_ne.
Qed.

Lemma authorized_after_login_witness :
  requestInterceptor
    (login (Answered {[ "access_token" := "abc" ]}) (Answered (Some ∅)) logged_out).1 ∅
    !! "Authorization" = Some "Bearer abc".
Proof.
  apply (authorized_after_login {[ "access_token" := "abc" ]} "abc" (Answered (Some ∅))
           logged_out ∅); [reflexivity | reflexivity | discriminate].
Defined.

(** X18: an error always reaches the caller again.  An error with status
    401 removes the stored token, so that later requests go out without an
    [Authorization] header added, and sends the page to [/login], while the
    store itself is untouched; any other error changes nothing.  After
    [logout] requests go out without the header as well. *)
Theorem unauthorized_drops_token (status : option Z) (s : Session)
    (request_headers : JsObject) :
  (responseInterceptor (A := JsObject) (Refused status) s).2 = Rejected
  /\ (status = Some 401%Z ->
      requestInterceptor (responseInterceptor (A := JsObject) (Refused status) s).1
        request_headers = request_headers
      /\ href (responseInterceptor (A := JsObject) (Refused status) s).1 = "/login"
      /\ store (responseInterceptor (A := JsObject) (Refused status) s).1 = store s)
  /\ (status <> Some 401%Z ->
      (responseInterceptor (A := JsObject) (Refused status) s).1 = s)
  /\ requestInterceptor (logout s) request_headers = request_headers.
Proof.
  unfold responseInterceptor.
  destruct (decide (status = Some 401%Z)) as [He|Hne]; cbn;
    (split; [reflexivity|]); (split; [intros Hx; try contradiction; now repeat split|]);
    (split; [intros Hx; try contradiction; reflexivity | reflexivity]).
Qed.

(** ** Uploads *)

(** X19: every form that [handleUpload] of the Templates page lets through
    carries the chosen file, a name with a character that is not
    whitespace, the document type, the default flag written as [true] or
    [false], and the description only when it is not empty; without a file
    or with a blank name nothing is posted, the missing file being reported
    first. *)
Theorem template_upload_form (uploadFile : option File) (uploadData : UploadData) :
  (forall form, handleUpload uploadFile uploadData = inr form ->
     exists file,
       uploadFile = Some file
       /\ whitespace_only (upload_name uploadData) = false
       /\ getAll "template_file" form = [FormFile file]
       /\ getAll "name" form = [FormText (upload_name uploadData)]
       /\ getAll "document_type" form = [FormText (upload_document_type uploadData)]
       /\ getAll "is_default" form
          = [FormText (if upload_is_default uploadData then "true" else "false")]
       /\ getAll "description" form
          = if JS.truthy (upload_description uploadData)
            then [FormText (upload_description uploadData)] else [])
  /\ (uploadFile = None ->
      handleUpload uploadFile uploadData = inl "Please select a template file")
  /\ (uploadFile <> None -> whitespace_only (upload_name uploadData) = true ->
      handleUpload uploadFile uploadData = inl "Please enter a template name").
Proof.
  unfold handleUpload. destruct uploadFile as [file|].
  - rewrite trim_blank.
    destruct (whitespace_only (upload_name uploadData)) eqn:Hw.
    + split; [intros form H; discriminate H|]. split; [discriminate | reflexivity].
    + split; [|split; [discriminate | intros _ H; discriminate H]].
      intros form [= <-]. exists file. unfold templatesApi_upload.
      cbn [JS.or_else].
      destruct (upload_description uploadData) as [|c d] eqn:Hd; cbn [JS.truthy];
        now repeat split.
  - split; [intros form H; discriminate H|]. split; [reflexivity | intros H; now contradiction H].
Qed.

Lemma upload_each_all (upload : File -> UploadOutcome) (files : list File) :
  (forall file, In file files -> upload file = Uploaded) ->
  upload_each upload files
  = mkUploadRun
      (map (fun file => documentsApi_upload file (Some (file_name file)) None None None) files)
      (replicate (length files) (ToastSuccess "Document uploaded successfully!"))
      false Fulfilled.
Proof.
  induction files as [|f files IH]; intros H; [reflexivity|].
  cbn [upload_each]. rewrite (H f) by now left.
  rewrite IH by (intros g Hg; apply H; now right). reflexivity.
Qed.

(** X20: [onDrop] of the Documents page uploads the dropped files one after
    the other and stops at the first upload that fails.  When all succeed,
    each file is posted once, in order, each with a success toast, and the
    uploading flag ends off.  When one fails, the files before it and that
    file are the only ones posted, the error toast shows the detail of the
    error or [Upload failed], the files after it are never posted, and the
    uploading flag is left on. *)
Theorem documents_upload_stops_at_failure (upload : File -> UploadOutcome)
    (done : list File) (failing : File) (rest : list File) (detail : option string) :
  (forall file, In file done -> upload file = Uploaded) ->
  upload failing = UploadFailed detail ->
  Documents_onDrop upload done
  = mkUploadRun
      (map (fun file => documentsApi_upload file (Some (file_name file)) None None None) done)
      (replicate (length done) (ToastSuccess "Document uploaded successfully!"))
      false Fulfilled
  /\ Documents_onDrop upload (done ++ failing :: rest)
     = mkUploadRun
         (map (fun file => documentsApi_upload file (Some (file_name file)) None None None)
            (done ++ [failing]))
         (replicate (length done) (ToastSuccess "Document uploaded successfully!")
          ++ [ToastError (JS.or_else detail "Upload failed")])
         true Threw.
Proof.
  intros Hdone Hfail. unfold Documents_onDrop. split.
  - now apply upload_each_all.
  - induction done as [|f done IH].
    + cbn [app upload_each]. now rewrite Hfail.
    + cbn [app upload_each]. rewrite (Hdone f) by now left.
      rewrite IH by (intros g Hg; apply Hdone; now right). reflexivity.
Qed.

Lemma documents_upload_stops_at_failure_witness :
  isUploading
    (Documents_onDrop
       (fun file => if String.eqb (file_name file) "b.pdf"
                    then UploadFailed (Some "File too large") else Uploaded)
       [mkFile "a.pdf" "application/pdf" "A"; mkFile "b.pdf" "application/pdf" "B";
        mkFile "c.pdf" "application/pdf" "C"]) = true
  /\ length
       (posted
          (Documents_onDrop
             (fun file => if String.eqb (file_name file) "b.pdf"
                          then UploadFailed (Some "File too large") else Uploaded)
             [mkFile "a.pdf" "application/pdf" "A"; mkFile "b.pdf" "application/pdf" "B";
              mkFile "c.pdf" "application/pdf" "C"])) = 2.
Proof.
  destruct (documents_upload_stops_at_failure
              (fun file => if String.eqb (file_name file) "b.pdf"
                           then UploadFailed (Some "File too large") else Uploaded)
              [mkFile "a.pdf" "application/pdf" "A"]
              (mkFile "b.pdf" "application/pdf" "B")
              [mkFile "c.pdf" "application/pdf" "C"]
              (Some "File too large")) as [_ H].
  - intros file [<- | []]. reflexivity.
  - reflexivity.
  - change ([mkFile "a.pdf" "application/pdf" "A"; mkFile "b.pdf" "application/pdf" "B";
             mkFile "c.pdf" "application/pdf" "C"])
      with ([mkFile "a.pdf" "application/pdf" "A"]
            ++ mkFile "b.pdf" "application/pdf" "B" :: [mkFile "c.pdf" "application/pdf" "C"]).
    rewrite H. split; reflexivity.
Defined.

(** ** The prompt manager *)

Lemma fold_assign_snoc (vs : list VariableSpec.t) (v : VariableSpec.t) (vars : JsObject) :
  fold_left
    (fun vars v =>
       assign (VariableSpec.name v) (JS.or_else (VariableSpec.default_value v) "") vars)
    (vs ++ [v]) vars
  = assign (VariableSpec.name v) (JS.or_else (VariableSpec.default_value v) "")
      (fold_left
         (fun vars v =>
            assign (VariableSpec.name v) (JS.or_else (VariableSpec.default_value v) "") vars)
         vs vars).
Proof. now rewrite fold_left_app. Qed.

(** X21: the test dialog starts from the declared defaults.  For every name
    other than [__proto__], the object built by [handleOpenTest] has the
    property exactly when the name is declared, and its value is the
    default value of the last variable declared under that name, the empty
    string when that default is missing or empty.  A prompt without a
    variable list gives the empty object. *)
Theorem test_variables_last_default (variables : option (list VariableSpec.t))
    (name : string) :
  name <> "__proto__" ->
  handleOpenTest variables !! name
  = option_map (fun v => JS.or_else (VariableSpec.default_value v) "")
      (last_declared name (default [] variables)).
Proof.
  intros Hname. unfold handleOpenTest, last_declared.
  induction (default [] variables) as [|v vs IH] using rev_ind.
  - reflexivity.
  - rewrite fold_assign_snoc, rev_app_distr. cbn [rev app List.find].
    unfold assign.
    destruct (String.eqb (VariableSpec.name v) name) eqn:E.
    + apply String.eqb_eq in E.
      destruct (String.eqb (VariableSpec.name v) "__proto__") eqn:E2.
      * apply String.eqb_eq in E2. congruence.
      * rewrite E. cbn [option_map]. apply lookup_insert_eq.
    + apply String.eqb_neq in E.
      destruct (String.eqb (VariableSpec.name v) "__proto__"); [exact IH|].
      rewrite lookup_insert_ne by exact E. exact IH.
Qed.

Lemma test_variables_last_default_witness :
  handleOpenTest
    (Some [var "project" "" (Some "Alpha"); var "owner" "" None;
           var "project" "" (Some "Beta")]) !! "project"
  = Some "Beta".
Proof.
  rewrite (test_variables_last_default
             (Some [var "project" "" (Some "Alpha"); var "owner" "" None;
                    var "project" "" (Some "Beta")]) "project");
    [reflexivity | discriminate].
Defined.
